(** * apollo-server-lambda: the HTTP-to-GraphQL adapter

    A shallow embedding of [ApolloServer.createHandler] and
    [handleFileUploads] (the Request Translator) and of the three
    [graphqlLambda] handlers (the Execution Bridge, in its present
    content-type aware form and in its two earlier forms), followed by the
    properties the specification states about them. *)

From Stdlib Require Import String Ascii ZArith List Bool.
From Stdlib Require Import DecimalString.
From stdpp Require Import base option gmap strings fin_maps.

Import ListNotations.
Local Open Scope string_scope.
Local Open Scope Z_scope.

(** ** JavaScript strings *)

Module Str.

(** ASCII lower-casing, as the Fetch [Headers] class applies to names. *)
Definition lower_ascii (c : ascii) : ascii :=
  let n := N_of_ascii c in
  if (65 <=? n)%N && (n <=? 90)%N then ascii_of_N (n + 32) else c.

Fixpoint toLowerCase (s : string) : string :=
  match s with
  | EmptyString => EmptyString
  | String c s' => String (lower_ascii c) (toLowerCase s')
  end.

(** [s.startsWith(p)] *)
Fixpoint startsWith (p s : string) : bool :=
  match p, s with
  | EmptyString, _ => true
  | String a p', String b s' => Ascii.eqb a b && startsWith p' s'
  | String _ _, EmptyString => false
  end.

(** [s.includes(sub)] *)
Fixpoint includes (sub s : string) : bool :=
  startsWith sub s ||
  match s with
  | EmptyString => false
  | String _ s' => includes sub s'
  end.

(** Truthiness of a string value: only the empty string is falsy. *)
Definition truthy (s : string) : bool :=
  match s with EmptyString => false | String _ _ => true end.

(** [xs.join(sep)] on an array of strings. *)
Fixpoint join (sep : string) (xs : list string) : string :=
  match xs with
  | [] => ""
  | [x] => x
  | x :: rest => x ++ sep ++ join sep rest
  end.

(** [xs.includes(x)] on an array of strings. *)
Definition mem (x : string) (xs : list string) : bool :=
  existsb (String.eqb x) xs.

(** The decimal digits of an integer, as a template literal prints a
    small one ([arguments.length]). *)
Definition of_Z (n : Z) : string := NilZero.string_of_int (Z.to_int n).

End Str.

(** ** JavaScript numbers *)

Module Num.

(** A number value.  A finite number other than zero is given by its sign
    and by the two integers the language's number-to-string conversion
    works from: [s], the integer its shortest decimal digits spell (so
    [s] does not end in 0), and [n], the position of the decimal point,
    the value being [s * 10 ^ (n - k)] for [k] the number of digits of
    [s].  So 600 is [Finite false 6 3], 0.25 is [Finite false 25 0] and
    1e21 is [Finite false 1 22]. *)
Inductive t :=
| NaN
| Infinity (negative : bool)
| Zero
| Finite (negative : bool) (s : positive) (n : Z).

Fixpoint zeros (n : nat) : string :=
  match n with
  | O => ""
  | S m => String "0" (zeros m)
  end.

(** [x.toString()], radix 10: the digits in full where the decimal point
    falls within 21 digits and not more than six places before them,
    exponent notation otherwise. *)
Definition toString (x : t) : string :=
  match x with
  | NaN => "NaN"
  | Zero => "0"
  | Infinity negative => (if negative then "-" else "") ++ "Infinity"
  | Finite negative s n =>
      let d := Str.of_Z (Zpos s) in
      let k := Z.of_nat (String.length d) in
      let exponent :=
        (if n - 1 <? 0 then "-" else "+") ++ Str.of_Z (Z.abs (n - 1)) in
      (if negative then "-" else "") ++
      (if (k <=? n) && (n <=? 21) then d ++ zeros (Z.to_nat (n - k))
       else if (0 <? n) && (n <=? 21) then
         String.substring 0 (Z.to_nat n) d ++ "." ++
         String.substring (Z.to_nat n) (Z.to_nat (k - n)) d
       else if (-6 <? n) && (n <=? 0) then
         "0." ++ zeros (Z.to_nat (- n)) ++ d
       else if k =? 1 then d ++ "e" ++ exponent
       else
         String.substring 0 1 d ++ "." ++
         String.substring 1 (Z.to_nat (k - 1)) d ++ "e" ++ exponent)
  end.

End Num.

(** ** Optional values and the [||] operator *)

(** [a || b] on possibly-undefined strings: the first truthy operand,
    otherwise the last operand. *)
Definition or_else (a b : option string) : option string :=
  match a with
  | Some s => if Str.truthy s then a else b
  | None => b
  end.

(** Truthiness of a possibly-undefined string. *)
Definition truthy_opt (a : option string) : bool :=
  match a with Some s => Str.truthy s | None => false end.

(** ** JavaScript objects with string values *)

(** A header object as the handlers build and return it
    ([Record<string, string>]): it is only ever read by key and merged
    with the spread operator, so it is a finite map.  Keys are
    case-sensitive, as JavaScript property names are. *)
Abbreviation HeaderObject := (gmap string string).

(** [{...a, ...b}]: the properties of [b] are written over those of [a]. *)
Definition spread (a b : HeaderObject) : HeaderObject := b ∪ a.

(** [...h] where [h] may be [undefined]: spreading [undefined] adds
    nothing. *)
Definition spread_opt (h : option HeaderObject) : HeaderObject :=
  match h with Some o => o | None => ∅ end.

(** The raw [event.headers] object.  The [Headers] constructor walks its
    own properties in insertion order, so the order is kept: the list holds
    the properties in that order. *)
Abbreviation PropertyList := (list (string * string)).

Module Obj.

(** [o[k]] *)
Fixpoint get (k : string) (o : PropertyList) : option string :=
  match o with
  | [] => None
  | (k', v) :: rest => if String.eqb k' k then Some v else get k rest
  end.

(** [o[k] = v]: an existing property keeps its place, a new one goes
    last. *)
Fixpoint set (k v : string) (o : PropertyList) : PropertyList :=
  match o with
  | [] => [(k, v)]
  | (k', v') :: rest =>
      if String.eqb k' k then (k', v) :: rest else (k', v') :: set k v rest
  end.

End Obj.

(** ** The Fetch [Headers] class *)

Module Headers.

(** Modelled from the spec: the [Headers] class that [apollo-server-env]
    exports is not among the sources.  It is a case-insensitive mapping
    from header name to value with get, set and iteration, built from a
    raw header object or copied from another instance.  Names are kept
    lower-cased.  The order of iteration plays no part here: the one
    iteration in the sources writes every entry into an object. *)
Abbreviation t := (gmap string string).

Definition empty : t := ∅.

(** Modelled from the spec: [h.get(name)], [null] when the header is not
    there. *)
Definition get (name : string) (h : t) : option string :=
  h !! Str.toLowerCase name.

(** Modelled from the spec: [h.set(name, value)]. *)
Definition set (name value : string) (h : t) : t :=
  <[Str.toLowerCase name := value]> h.

(** Modelled from the spec: [h.append(name, value)].  Raw names that
    differ only in case are one header; the Fetch rule joins the values
    given under them with a comma and a space. *)
Definition append (name value : string) (h : t) : t :=
  let k := Str.toLowerCase name in
  match h !! k with
  | Some old => <[k := old ++ ", " ++ value]> h
  | None => <[k := value]> h
  end.

(** Modelled from the spec: [new Headers(obj)], which appends the
    properties of [obj] one after the other. *)
Definition of_object (o : PropertyList) : t :=
  fold_left (fun h kv => append (fst kv) (snd kv) h) o empty.

(** Modelled from the spec: [new Headers(other)], a copy. *)
Definition copy (h : t) : t := h.

(** [Array.from(h).reduce((o, [k, v]) => { o[k] = v; return o }, {})]:
    every entry becomes a property of a fresh object, under its
    lower-cased name. *)
Definition to_object (h : t) : HeaderObject := h.

End Headers.

(** ** Configuration of [createHandler] *)

(** [string | string[]] *)
Inductive StringOrList :=
| One (s : string)
| Many (xs : list string).

(** [boolean | string | string[]] *)
Inductive OriginOption :=
| OriginBool (b : bool)
| OriginString (s : string)
| OriginList (xs : list string).

Record CorsOptions := {
  origin : option OriginOption;
  methods : option StringOrList;
  allowedHeaders : option StringOrList;
  exposedHeaders : option StringOrList;
  credentials : option bool;
  maxAge : option Num.t
}.

Record FileUploadOptions := {
  maxFieldSize : option Z;
  maxFileSize : option Z;
  maxFiles : option Z
}.

Record CreateHandlerOptions := {
  cors : option CorsOptions;
  async : option bool;
  uploadsConfig : option FileUploadOptions
}.

(** The default argument of [createHandler]. *)
Definition defaultCreateHandlerOptions : CreateHandlerOptions :=
  {| cors := None; async := Some false; uploadsConfig := None |}.

(** Truthiness of the option values the handler tests. *)
Definition truthy_sl (o : option StringOrList) : bool :=
  match o with
  | Some (One s) => Str.truthy s
  | Some (Many _) => true
  | None => false
  end.

Definition truthy_origin (o : option OriginOption) : bool :=
  match o with
  | Some (OriginBool b) => b
  | Some (OriginString s) => Str.truthy s
  | Some (OriginList _) => true
  | None => false
  end.

Definition truthy_bool (o : option bool) : bool :=
  match o with Some b => b | None => false end.

(** The three blocks of the shape
    [if (v) { if (typeof v === 'string') set(name, v)
              else if (Array.isArray(v)) set(name, v.join(',')) }]. *)
Definition set_joined (name : string) (v : option StringOrList)
    (h : Headers.t) : Headers.t :=
  match v with
  | Some (One s) => if Str.truthy s then Headers.set name s h else h
  | Some (Many xs) => Headers.set name (Str.join "," xs) h
  | None => h
  end.

(** The value such a block gives its header, if it sets it. *)
Definition headerValue (v : option StringOrList) : option string :=
  match v with
  | Some (One s) => if Str.truthy s then Some s else None
  | Some (Many xs) => Some (Str.join "," xs)
  | None => None
  end.

(** [corsHeaders], computed once per handler (lines 72-114). *)
Definition corsHeaders (c : option CorsOptions) : Headers.t :=
  match c with
  | None => Headers.empty
  | Some c =>
      let h := set_joined "access-control-allow-methods" (methods c) Headers.empty in
      let h := set_joined "access-control-allow-headers" (allowedHeaders c) h in
      let h := set_joined "access-control-expose-headers" (exposedHeaders c) h in
      let h := if truthy_bool (credentials c)
               then Headers.set "access-control-allow-credentials" "true" h
               else h in
      match maxAge c with
      | Some n => Headers.set "access-control-max-age" (Num.toString n) h
      | None => h
      end
  end.

(** The names [corsHeaders] may set, and those a request may add to. *)
Definition baseNames : list string :=
  ["access-control-allow-methods"; "access-control-allow-headers";
   "access-control-expose-headers"; "access-control-allow-credentials";
   "access-control-max-age"].

Definition requestNames : list string :=
  "access-control-allow-origin" :: baseNames.

(** [requestCorsHeaders] for one request (lines 125-154); [eventHeaders]
    is [new Headers(event.headers)]. *)
Definition requestCorsHeaders (c : option CorsOptions)
    (eventHeaders : Headers.t) : Headers.t :=
  let h := Headers.copy (corsHeaders c) in
  match c with
  | None => h
  | Some c =>
      if truthy_origin (origin c) then
        let requestOrigin := Headers.get "origin" eventHeaders in
        let h :=
          match origin c with
          | Some (OriginString s) => Headers.set "access-control-allow-origin" s h
          | Some (OriginBool _) =>
              match requestOrigin with
              | Some o => if Str.truthy o
                          then Headers.set "access-control-allow-origin" o h
                          else h
              | None => h
              end
          | Some (OriginList xs) =>
              match requestOrigin with
              | Some o => if Str.truthy o && Str.mem o xs
                          then Headers.set "access-control-allow-origin" o h
                          else h
              | None => h
              end
          | None => h
          end in
        let requestAccessControlRequestHeaders :=
          Headers.get "access-control-request-headers" eventHeaders in
        match requestAccessControlRequestHeaders with
        | Some r =>
            if negb (truthy_sl (allowedHeaders c)) && Str.truthy r
            then Headers.set "access-control-allow-headers" r h
            else h
        | None => h
        end
      else h
  end.

(** [requestCorsHeadersObject] (lines 160-165). *)
Definition requestCorsHeadersObject (c : option CorsOptions)
    (eventHeaders : Headers.t) : HeaderObject :=
  Headers.to_object (requestCorsHeaders c eventHeaders).

(** ** The Lambda data model *)

Record RequestContext := {
  requestPath : option string      (* [requestContext.path] *)
}.

(** [APIGatewayProxyEvent], generic in what [body] holds: the host sends
    [string | null], and [createHandler] overwrites it with whatever
    [handleFileUploads] resolves to. *)
Record APIGatewayProxyEvent (B : Type) := {
  httpMethod : string;
  path : option string;
  headers : PropertyList;
  queryStringParameters : option HeaderObject;
  body : B;
  isBase64Encoded : bool;
  requestContext : option RequestContext
}.
Arguments httpMethod {B} _.
Arguments path {B} _.
Arguments headers {B} _.
Arguments queryStringParameters {B} _.
Arguments body {B} _.
Arguments isBase64Encoded {B} _.
Arguments requestContext {B} _.

(** The event as the host sends it. *)
Abbreviation HostEvent := (APIGatewayProxyEvent (option string)).

(** The invocation context; [callbackWaitsForEmptyEventLoop] is the one
    property the handlers write. *)
Record LambdaContext := {
  callbackWaitsForEmptyEventLoop : bool;
  awsRequestId : string
}.

Definition setCallbackWaits (b : bool) (c : LambdaContext) : LambdaContext :=
  {| callbackWaitsForEmptyEventLoop := b; awsRequestId := awsRequestId c |}.

(** [APIGatewayProxyResult] as the present handlers build it; [headers]
    is absent from the two plain-text error results and may be absent on
    what the engine hands back. *)
Record APIGatewayProxyResult := {
  resultBody : string;
  statusCode : Z;
  resultHeaders : option HeaderObject
}.

(** Values that are thrown or that reject a promise. *)
#[local] Set Warnings "-register-all".
Inductive JsError :=
| HttpQueryError (status : Z) (message : string) (errHeaders : option HeaderObject)
    (* an instance of the class the bridge imports *)
| OtherError (name message : string)
    (otherStatus : option Z) (otherHeaders : option HeaderObject)
    (* any other error object: its name and message, and the [statusCode]
       and [headers] properties it may have, as an [HttpQueryError] of
       another copy of the module has *)
| ErrorArray (errors : list JsError).

(** [error instanceof HttpQueryError] is a match on the first constructor;
    the earlier handlers read properties off the error instead. *)
Definition error_name (e : JsError) : option string :=
  match e with
  | HttpQueryError _ _ _ => Some "HttpQueryError"
  | OtherError n _ _ _ => Some n
  | ErrorArray _ => None
  end.

Definition error_message (e : JsError) : option string :=
  match e with
  | HttpQueryError _ m _ => Some m
  | OtherError _ m _ _ => Some m
  | ErrorArray _ => None
  end.

Definition error_statusCode (e : JsError) : option Z :=
  match e with
  | HttpQueryError s _ _ => Some s
  | OtherError _ _ s _ => s
  | ErrorArray _ => None
  end.

Definition error_headers (e : JsError) : option HeaderObject :=
  match e with
  | HttpQueryError _ _ h => h
  | OtherError _ _ _ h => h
  | ErrorArray _ => None
  end.

(** How a promise settles, or how a call that may throw ends. *)
Inductive Outcome (A : Type) :=
| Resolved (a : A)
| Rejected (e : JsError).
Arguments Resolved {A} _.
Arguments Rejected {A} _.

Inductive BufferEncoding := base64 | ascii.

(** The readable stream handed to the upload processor: one chunk,
    [Buffer.from(event.body, encoding)], then end of stream, with the
    event's header object attached. *)
Record UploadRequest := {
  chunk : string;
  chunkEncoding : BufferEncoding;
  uploadHeaders : PropertyList
}.

(** [{ formatter: requestOptions.formatError, debug: requestOptions.debug }] *)
Record FormatErrorOptions := {
  formatter : option (JsError -> JsError);
  debug : option bool
}.

Section Adapter.

(** What [JSON.parse] returns, what the upload processor resolves to,
    and the engine's [GraphQLOptions]: all three pass through the adapter,
    which looks into none of them; of the second it tests the
    truthiness. *)
Context {Json Processed Options : Type}.

(** [event.body] as the Execution Bridge may find it. *)
Inductive Body :=
| Original (b : option string)       (* as the host sent it *)
| Uploaded (p : Processed).          (* the upload processor's output *)

Abbreviation BridgeEvent := (APIGatewayProxyEvent Body).

(** The [query] variable of [graphqlLambda]. *)
Inductive Query :=
| QueryParams (q : option HeaderObject)   (* [event.queryStringParameters] *)
| QueryBody (b : Body)                    (* [event.body], as it is *)
| QueryJson (j : Json).                   (* [JSON.parse(event.body)] *)

(** The second argument of [runHttpQuery]. *)
Record HttpQueryRequest := {
  rqMethod : string;
  rqOptions : Options;
  rqQuery : Query;
  rqUrl : option string;
  rqRequestMethod : string;
  rqHeaders : Headers.t
}.

(** [{ graphqlResponse, responseInit }] *)
Record HttpQueryResponse := {
  graphqlResponse : string;
  responseInitHeaders : option HeaderObject
}.

(** The collaborators the two modules import, and the two conversions the
    language applies to a value the upload processor resolved to. *)
Record Imports := {
  runHttpQuery :
    BridgeEvent -> LambdaContext -> HttpQueryRequest -> Outcome HttpQueryResponse;
  (** [undefined] where the runtime has no upload support *)
  processFileUploads :
    option (UploadRequest -> FileUploadOptions -> Outcome Processed);
  formatApolloErrors : list JsError -> FormatErrorOptions -> list JsError;
  renderPlaygroundPage : gmap string string -> string;
  JSON_parse : string -> Outcome Json;
  (** [String(v)], which [JSON.parse] applies to an argument that is not
      a string *)
  String_of : Processed -> string;
  (** [!!v], the truthiness of such a value *)
  Boolean_of : Processed -> bool
}.

(** [!!event.body] *)
Definition truthy_body (I : Imports) (b : Body) : bool :=
  match b with
  | Original o => truthy_opt o
  | Uploaded p => Boolean_of I p
  end.

(** What [ApolloServer] inherits from [ApolloServerBase]. *)
Record ApolloServerBase := {
  willStart : Outcome unit;
  playgroundOptions : option (gmap string string);
  requestOptions : FormatErrorOptions;
  graphQLServerOptions : BridgeEvent -> LambdaContext -> Outcome Options
}.

(** *** Calls to collaborators, in order *)

Inductive Call :=
| AwaitWillStart
| CallProcessFileUploads (r : UploadRequest) (cfg : FileUploadOptions)
| CallFormatApolloErrors (es : list JsError)
| CallCreateGraphQLServerOptions (ev : BridgeEvent) (ctx : LambdaContext)
| CallRunHttpQuery (ev : BridgeEvent) (ctx : LambdaContext) (rq : HttpQueryRequest)
| CallRenderPlaygroundPage (opts : gmap string string).

(** Calls that reach the GraphQL engine, its startup included. *)
Definition engine_call (c : Call) : bool :=
  match c with
  | AwaitWillStart
  | CallFormatApolloErrors _
  | CallCreateGraphQLServerOptions _ _
  | CallRunHttpQuery _ _ _ => true
  | CallProcessFileUploads _ _
  | CallRenderPlaygroundPage _ => false
  end.

(** *** Asynchronous computations

    An [async] function body: the collaborator calls it made, and how
    its promise settles. *)
Definition Async (A : Type) : Type := (list Call * Outcome A)%type.

Definition ret {A} (a : A) : Async A := ([], Resolved a).

Definition throw {A} (e : JsError) : Async A := ([], Rejected e).

Definition bind {A B} (m : Async A) (k : A -> Async B) : Async B :=
  match m with
  | (t, Resolved a) => let (t', r) := k a in ((t ++ t')%list, r)
  | (t, Rejected e) => (t, Rejected e)
  end.

(** [await] on a collaborator's promise. *)
Definition await {A} (c : Call) (o : Outcome A) : Async A := ([c], o).

(** [try { m } catch (error) { h error }] *)
Definition try_catch {A} (m : Async A) (h : JsError -> Async A) : Async A :=
  match m with
  | (t, Resolved a) => (t, Resolved a)
  | (t, Rejected e) => let (t', r) := h e in ((t ++ t')%list, r)
  end.

Definition trace {A} (m : Async A) : list Call := fst m.
Definition settled {A} (m : Async A) : Outcome A := snd m.

Notation "'let*' x ':=' m 'in' k" := (bind m (fun x => k))
  (at level 10, x name, m at level 100, k at level 200, only parsing).

(** ** The Execution Bridge: [graphqlLambda] in its present form *)

Definition isPost {B} (event : APIGatewayProxyEvent B) : bool :=
  String.eqb (httpMethod event) "POST".

(** [JSON.parse(event.body)]; an argument that is not a string is
    converted with [String] first, so [null] reads as the text [null]. *)
Definition JSON_parse_body (I : Imports) (b : Body) : Outcome Json :=
  match b with
  | Original (Some s) => JSON_parse I s
  | Original None => JSON_parse I "null"
  | Uploaded p => JSON_parse I (String_of I p)
  end.

(** [contentType && contentType.startsWith('application/json')] *)
Definition isJsonContentType (contentType : option string) : bool :=
  match contentType with
  | Some ct => Str.truthy ct && Str.startsWith "application/json" ct
  | None => false
  end.

Definition postBodyMissing : APIGatewayProxyResult :=
  {| resultBody := "POST body missing."; statusCode := 500;
     resultHeaders := None |}.

Definition jsonParseFailed : APIGatewayProxyResult :=
  {| resultBody := "Error parsing JSON POST body"; statusCode := 415;
     resultHeaders := None |}.

(** Lines 42-56: the query payload, or the 415 result returned from the
    [catch] around [JSON.parse]. *)
Definition extractQuery (I : Imports) (event : BridgeEvent)
    (contentType : option string) : APIGatewayProxyResult + Query :=
  if isPost event && truthy_body I (body event) then
    if isJsonContentType contentType then
      match JSON_parse_body I (body event) with
      | Resolved j => inr (QueryJson j)
      | Rejected _ => inl jsonParseFailed
      end
    else inr (QueryBody (body event))
  else inr (QueryParams (queryStringParameters event)).

Definition httpQueryRequest (options : Options) (event : BridgeEvent)
    (query : Query) (hdrs : Headers.t) : HttpQueryRequest :=
  {| rqMethod := httpMethod event;
     rqOptions := options;
     rqQuery := query;
     rqUrl := path event;
     rqRequestMethod := httpMethod event;
     rqHeaders := hdrs |}.

(** The [catch] of lines 78-88: a structured query error becomes the
    result returned, anything else is thrown again. *)
Definition recovered (error : JsError) : Outcome APIGatewayProxyResult :=
  match error with
  | HttpQueryError s m h =>
      Resolved {| resultBody := m; statusCode := s; resultHeaders := h |}
  | _ => Rejected error
  end.

Definition mapQueryError (error : JsError) : Async APIGatewayProxyResult :=
  ([], recovered error).

(** The result of lines 73-77. *)
Definition okResult (r : HttpQueryResponse) : APIGatewayProxyResult :=
  {| resultBody := graphqlResponse r;
     statusCode := 200;
     resultHeaders := responseInitHeaders r |}.

(** [graphqlHandler] (lines 28-89). *)
Definition graphqlHandler (I : Imports) (options : Options)
    (event : BridgeEvent) (context : LambdaContext)
    : Async APIGatewayProxyResult :=
  if isPost event && negb (truthy_body I (body event)) then
    ret postBodyMissing
  else
    let hdrs := Headers.of_object (headers event) in
    let contentType := Headers.get "content-type" hdrs in
    match extractQuery I event contentType with
    | inl early => ret early
    | inr query =>
        let rq := httpQueryRequest options event query hdrs in
        try_catch
          (let* r := await (CallRunHttpQuery event context rq)
                           (runHttpQuery I event context rq) in
           ret (okResult r))
          mapQueryError
    end.

(** What lines 58-88 make of the way the engine's promise settles. *)
Definition bridgeResult (x : Outcome HttpQueryResponse)
    : Outcome APIGatewayProxyResult :=
  match x with
  | Resolved r => Resolved (okResult r)
  | Rejected e => recovered e
  end.

(** [graphqlLambda(options)]: a falsy [options] throws; the arity check
    that follows never fires where one argument is passed, as every
    call in these sources does. *)
Definition graphqlLambda (I : Imports) (options : option Options)
    : Outcome (BridgeEvent -> LambdaContext -> Async APIGatewayProxyResult) :=
  match options with
  | None =>
      Rejected (OtherError "Error" "Apollo Server requires options." None None)
  | Some o => Resolved (graphqlHandler I o)
  end.

(** ** The Request Translator: [ApolloServer] *)

(** [createGraphQLServerOptions] forwards to the inherited
    [graphQLServerOptions]. *)
Definition createGraphQLServerOptions (S : ApolloServerBase)
    (event : BridgeEvent) (context : LambdaContext) : Outcome Options :=
  graphQLServerOptions S event context.

(** [contentType && contentType.startsWith('multipart/form-data')] *)
Definition isMultipart (contentType : option string) : bool :=
  match contentType with
  | Some ct => Str.truthy ct && Str.startsWith "multipart/form-data" ct
  | None => false
  end.

(** Lines 289-295: the request stream, with [event.headers] attached and
    [content-type] written into it. *)
Definition uploadRequest (event : HostEvent) (contentType b : string)
    : UploadRequest :=
  {| chunk := b;
     chunkEncoding := if isBase64Encoded event then base64 else ascii;
     uploadHeaders := Obj.set "content-type" contentType (headers event) |}.

(** [handleFileUploads] (lines 276-301).  Besides the promise of the new
    body it yields [event.headers] as the call leaves it: the upload
    request shares that object and writes [content-type] into it.  The
    [response] argument is a writable stream made for the call, which
    nothing reads afterwards; it has no counterpart here. *)
Definition handleFileUploads (I : Imports) (event : HostEvent)
    (hdrs : Headers.t) (uploadsCfg : FileUploadOptions)
    : PropertyList * Async Body :=
  match processFileUploads I, body event with
  | None, _ | _, None => (headers event, ret (Original (body event)))
  | Some process, Some b =>
      let contentType := Headers.get "content-type" hdrs in
      match contentType with
      | Some ct =>
          if isMultipart contentType then
            let request := uploadRequest event ct b in
            (uploadHeaders request,
             let* p := await (CallProcessFileUploads request uploadsCfg)
                             (process request uploadsCfg) in
             ret (Uploaded p))
          else (headers event, ret (Original (body event)))
      | None => (headers event, ret (Original (body event)))
      end
  end.

(** The event after [event.body = await this.handleFileUploads(...)]. *)
Definition withBody (event : HostEvent) (shared : PropertyList) (b : Body)
    : BridgeEvent :=
  {| httpMethod := httpMethod event;
     path := path event;
     headers := shared;
     queryStringParameters := queryStringParameters event;
     body := b;
     isBase64Encoded := isBase64Encoded event;
     requestContext := requestContext event |}.

(** [uploadsConfig || {}] *)
Definition uploadsConfigOrEmpty (o : CreateHandlerOptions) : FileUploadOptions :=
  match uploadsConfig o with
  | Some c => c
  | None => {| maxFieldSize := None; maxFileSize := None; maxFiles := None |}
  end.

(** [{ formatter: this.requestOptions.formatError,
      debug: this.requestOptions.debug }] *)
Definition formatOptions (S : ApolloServerBase) : FormatErrorOptions :=
  {| formatter := formatter (requestOptions S);
     debug := debug (requestOptions S) |}.

(** Lines 225-237: the upload step inside its [try]/[catch], resolving
    to the event the bridge is given. *)
Definition uploadStep (S : ApolloServerBase) (I : Imports)
    (o : CreateHandlerOptions) (event : HostEvent) (eventHeaders : Headers.t)
    : Async BridgeEvent :=
  let (shared, upload) :=
    handleFileUploads I event eventHeaders (uploadsConfigOrEmpty o) in
  let* b :=
    try_catch upload
      (fun error =>
         ([CallFormatApolloErrors [error]],
          Rejected (ErrorArray (formatApolloErrors I [error] (formatOptions S))))) in
  ret (withBody event shared b).

(** [then] on a promise: a function applied to the value it resolves to. *)
Definition Outcome_map {A B} (f : A -> B) (x : Outcome A) : Outcome B :=
  match x with
  | Resolved a => Resolved (f a)
  | Rejected e => Rejected e
  end.

(** Lines 244-252: [result && { ...result, headers: { ...result.headers,
    ...requestCorsHeadersObject } }]; a result object is truthy. *)
Definition mergeCors (corsObject : HeaderObject) (result : APIGatewayProxyResult)
    : APIGatewayProxyResult :=
  {| resultBody := resultBody result;
     statusCode := statusCode result;
     resultHeaders :=
       Some (spread (spread_opt (resultHeaders result)) corsObject) |}.

(** [resultPromise] (lines 219-253). *)
Definition resultPromise (S : ApolloServerBase) (I : Imports)
    (o : CreateHandlerOptions) (event : HostEvent) (eventHeaders : Headers.t)
    (corsObject : HeaderObject) (context : LambdaContext)
    : Async APIGatewayProxyResult :=
  let* _ := await AwaitWillStart (willStart S) in
  let* event' := uploadStep S I o event eventHeaders in
  let* options := await (CallCreateGraphQLServerOptions event' context)
                        (createGraphQLServerOptions S event' context) in
  let* result :=
    match graphqlLambda I (Some options) with
    | Resolved handler => handler event' context
    | Rejected e => throw e
    end in
  ret (mergeCors corsObject result).

(** How the handler hands its result to the host. *)
Inductive Delivery :=
| ReturnedPromise (o : Outcome APIGatewayProxyResult)
    (* the handler returned a promise, which settles as [o] *)
| CallbackInvoked (o : Outcome APIGatewayProxyResult).
    (* [callback(null, result)] or [callback(error)] *)

(** One run of the handler: the delivery, the collaborator calls in
    order, and the invocation context as the run leaves it. *)
Record Invocation := {
  delivery : Delivery;
  calls : list Call;
  contextAfter : LambdaContext
}.

Definition delivered (d : Delivery) : Outcome APIGatewayProxyResult :=
  match d with ReturnedPromise o | CallbackInvoked o => o end.

(** [if (async) return Promise.resolve(result) / resultPromise;
     else callback(...)] *)
Definition deliver (isAsync : bool) (o : Outcome APIGatewayProxyResult)
    : Delivery :=
  if isAsync then ReturnedPromise o else CallbackInvoked o.

(** [a || b || '/'] of lines 187-190. *)
Definition toolEndpoint (event : HostEvent) : string :=
  let fromContext :=
    match requestContext event with
    | Some rc => requestPath rc
    | None => None
    end in
  match or_else (or_else (path event) fromContext) (Some "/") with
  | Some p => p
  | None => "/"
  end.

(** [event.headers['Accept'] || event.headers['accept']] *)
Definition acceptHeader (event : HostEvent) : option string :=
  or_else (Obj.get "Accept" (headers event)) (Obj.get "accept" (headers event)).

(** [acceptHeader && acceptHeader.includes('text/html')] *)
Definition acceptsHtml (event : HostEvent) : bool :=
  match acceptHeader event with
  | Some a => Str.truthy a && Str.includes "text/html" a
  | None => false
  end.

(** [{ endpoint: path, ...this.playgroundOptions }] *)
Definition playgroundRenderPageOptions (pg : gmap string string)
    (event : HostEvent) : gmap string string :=
  spread {["endpoint" := toolEndpoint event]} pg.

(** Lines 184-212: the renderer's argument and the result, when the
    branch is taken. *)
Definition toolPage (S : ApolloServerBase) (I : Imports)
    (corsObject : HeaderObject) (event : HostEvent)
    : option (gmap string string * APIGatewayProxyResult) :=
  match playgroundOptions S with
  | Some pg =>
      if String.eqb (httpMethod event) "GET" && acceptsHtml event then
        let opts := playgroundRenderPageOptions pg event in
        Some (opts,
              {| resultBody := renderPlaygroundPage I opts;
                 statusCode := 200;
                 resultHeaders :=
                   Some (spread {["Content-Type" := "text/html"]} corsObject) |})
      else None
  | None => None
  end.

(** The function [createHandler] returns (lines 116-266), applied to one
    event and context. *)
Definition createHandler (S : ApolloServerBase) (I : Imports)
    (o : CreateHandlerOptions) (event : HostEvent) (context : LambdaContext)
    : Invocation :=
  let isAsync := truthy_bool (async o) in
  let eventHeaders := Headers.of_object (headers event) in
  let corsObject := requestCorsHeadersObject (cors o) eventHeaders in
  if String.eqb (httpMethod event) "OPTIONS" then
    let result :=
      {| resultBody := ""; statusCode := 204;
         resultHeaders := Some (spread ∅ corsObject) |} in
    {| delivery := deliver isAsync (Resolved result);
       calls := [];
       contextAfter :=
         if isAsync then context else setCallbackWaits false context |}
  else
    match toolPage S I corsObject event with
    | Some (opts, result) =>
        {| delivery := deliver isAsync (Resolved result);
           calls := [CallRenderPlaygroundPage opts];
           contextAfter := context |}
    | None =>
        let context' :=
          if isAsync then context else setCallbackWaits false context in
        let run := resultPromise S I o event eventHeaders corsObject context' in
        {| delivery := deliver isAsync (settled run);
           calls := trace run;
           contextAfter := context' |}
    end.

(** ** The Execution Bridge in its two earlier forms ([lambdaApollo.ts]) *)

(** The object literal those handlers build from an error's properties,
    any of which may be [undefined]. *)
Record LooseResult := {
  looseBody : option string;
  looseStatusCode : option Z;
  looseHeaders : option HeaderObject
}.

Definition loose (r : APIGatewayProxyResult) : LooseResult :=
  {| looseBody := Some (resultBody r);
     looseStatusCode := Some (statusCode r);
     looseHeaders := resultHeaders r |}.

Definition ofError (error : JsError) : LooseResult :=
  {| looseBody := error_message error;
     looseStatusCode := error_statusCode error;
     looseHeaders := error_headers error |}.

(** ['HttpQueryError' === error.name] *)
Definition namedHttpQueryError (error : JsError) : bool :=
  match error_name error with
  | Some n => String.eqb n "HttpQueryError"
  | None => false
  end.

Definition ofResponse (r : HttpQueryResponse) : LooseResult :=
  {| looseBody := Some (graphqlResponse r);
     looseStatusCode := Some 200;
     looseHeaders := responseInitHeaders r |}.

(** [event.httpMethod === 'POST' && event.body ? JSON.parse(event.body)
    : event.queryStringParameters] *)
Definition legacyQuery (I : Imports) (event : HostEvent) : Outcome Query :=
  match body event with
  | Some b =>
      if isPost event && Str.truthy b then
        match JSON_parse I b with
        | Resolved j => Resolved (QueryJson j)
        | Rejected e => Rejected e
        end
      else Resolved (QueryParams (queryStringParameters event))
  | None => Resolved (QueryParams (queryStringParameters event))
  end.

Definition asBridgeEvent (event : HostEvent) : BridgeEvent :=
  withBody event (headers event) (Original (body event)).

(** How a run of the callback handler ends. *)
Inductive LegacyEnd :=
| Called (error : option JsError) (result : option LooseResult)
    (* [callback(error, result)] *)
| Threw (error : JsError).
    (* an exception left the handler; the callback was never invoked *)

Record LegacyInvocation := {
  legacyEnd : LegacyEnd;
  legacyCalls : list Call;
  legacyContextAfter : LambdaContext
}.

(** [graphqlLambda] of [lambdaApollo.ts] (lines 23-65), the callback
    handler. *)
Definition legacy_graphqlLambda (I : Imports) (options : Options)
    (event : HostEvent) (context : LambdaContext) : LegacyInvocation :=
  let context' := setCallbackWaits false context in
  if isPost event && negb (truthy_opt (body event)) then
    {| legacyEnd := Called None (Some (loose postBodyMissing));
       legacyCalls := [];
       legacyContextAfter := context' |}
  else
    match legacyQuery I event with
    | Rejected e =>
        {| legacyEnd := Threw e; legacyCalls := [];
           legacyContextAfter := context' |}
    | Resolved query =>
        let ev := asBridgeEvent event in
        let rq := httpQueryRequest options ev query
                    (Headers.of_object (headers event)) in
        {| legacyEnd :=
             match runHttpQuery I ev context' rq with
             | Resolved r => Called None (Some (ofResponse r))
             | Rejected error =>
                 if negb (namedHttpQueryError error)
                 then Called (Some error) None
                 else Called None (Some (ofError error))
             end;
           legacyCalls := [CallRunHttpQuery ev context' rq];
           legacyContextAfter := context' |}
    end.

(** [graphqlLambdaAsync] of [lambdaApollo.ts] (lines 82-121): the
    promise the [async] handler returns. *)
Definition legacy_graphqlLambdaAsync (I : Imports) (options : Options)
    (event : HostEvent) (context : LambdaContext)
    : list Call * Outcome LooseResult :=
  if isPost event && negb (truthy_opt (body event)) then
    ([], Resolved (loose postBodyMissing))
  else
    let handle (error : JsError) : Outcome LooseResult :=
      if namedHttpQueryError error
      then Resolved (ofError error)
      else Rejected error in
    match legacyQuery I event with
    | Rejected e => ([], handle e)
    | Resolved query =>
        let ev := asBridgeEvent event in
        let rq := httpQueryRequest options ev query
                    (Headers.of_object (headers event)) in
        ([CallRunHttpQuery ev context rq],
         match runHttpQuery I ev context rq with
         | Resolved r => Resolved (ofResponse r)
         | Rejected error => handle error
         end)
    end.

(** *** The argument checks of [graphqlLambda]

    [graphqlLambda(...args)] as a caller may write it, with any number of
    arguments: [options] is the first one, [undefined] when there is none
    (lines 18-26 of the present form, 13-21 and 72-80 of the earlier
    ones).  A falsy argument is [None]. *)
Definition graphqlLambdaCall (I : Imports) (args : list (option Options))
    : Outcome (BridgeEvent -> LambdaContext -> Async APIGatewayProxyResult) :=
  let options := match args with [] => None | first :: _ => first end in
  match graphqlLambda I options with
  | Rejected e => Rejected e
  | Resolved handler =>
      if (1 <? length args)%nat then
        Rejected (OtherError "Error"
                    ("Apollo Server expects exactly one argument, got "
                     ++ Str.of_Z (Z.of_nat (length args)))
                    None None)
      else Resolved handler
  end.

End Adapter.

(** ** The constructor of [ApolloServer] *)

Section Construction.

(** The values of the engine options other than booleans, and the rest of
    [Config]: the constructor reads neither. *)
Context {V C : Type}.

Inductive EngineValue :=
| EngineBool (b : bool)
| EngineOther (v : V).

(** [options.engine]: a boolean or an options object. *)
Inductive EngineOption :=
| EngineFlag (b : bool)
| EngineReporting (o : gmap string EngineValue).

Record Config := {
  engine : option EngineOption;
  otherConfig : C
}.

(** [!!options.engine] *)
Definition truthy_engine (e : option EngineOption) : bool :=
  match e with
  | Some (EngineFlag b) => b
  | Some (EngineReporting _) => true
  | None => false
  end.

(** [...(typeof options.engine !== 'boolean' ? options.engine : {})]:
    the properties of an options object, none for a boolean and none for
    [undefined]. *)
Definition engineProperties (e : option EngineOption)
    : gmap string EngineValue :=
  match e with
  | Some (EngineReporting o) => o
  | Some (EngineFlag _) | None => ∅
  end.

(** Lines 40-48: the options handed to [super], [apiKey] being
    [process.env.ENGINE_API_KEY]. *)
Definition ApolloServer_constructor (apiKey : option string) (options : Config)
    : Config :=
  if truthy_opt apiKey || truthy_engine (engine options) then
    {| engine :=
         Some (EngineReporting
                 (engineProperties (engine options)
                  ∪ {["sendReportsImmediately" := EngineBool true]}));
       otherConfig := otherConfig options |}
  else options.

(** [supportsUploads] (lines 270-272). *)
Definition supportsUploads : bool := true.

End Construction.

(** * Sample collaborators and requests

    Concrete servers, engines and events on which the properties below are
    evaluated.  Parsed JSON and upload output are kept as text, and the
    engine options carry nothing. *)

Module Sample.

Abbreviation SampleEvent := (APIGatewayProxyEvent (@Body string)).

Definition jsonHeaders : HeaderObject :=
  {["Content-Type" := "application/json"]}.

(** An engine that answers every query with the same document. *)
Definition answer (ev : SampleEvent) (ctx : LambdaContext)
    (rq : @HttpQueryRequest string string unit) : Outcome HttpQueryResponse :=
  Resolved {| graphqlResponse := "{ data }";
              responseInitHeaders := Some jsonHeaders |}.

(** An engine that sets a CORS header of its own. *)
Definition answerWithOrigin (ev : SampleEvent) (ctx : LambdaContext)
    (rq : @HttpQueryRequest string string unit) : Outcome HttpQueryResponse :=
  Resolved {| graphqlResponse := "{ data }";
              responseInitHeaders :=
                Some (<["access-control-allow-origin" := "https://engine.example"]>
                        jsonHeaders) |}.

(** An engine whose resolver reports the context's wait flag. *)
Definition answerWaitFlag (ev : SampleEvent) (ctx : LambdaContext)
    (rq : @HttpQueryRequest string string unit) : Outcome HttpQueryResponse :=
  Resolved {| graphqlResponse :=
                if callbackWaitsForEmptyEventLoop ctx then "{ waits: true }"
                else "{ waits: false }";
              responseInitHeaders := Some jsonHeaders |}.

(** An engine that refuses every query with a structured error. *)
Definition refuse (ev : SampleEvent) (ctx : LambdaContext)
    (rq : @HttpQueryRequest string string unit) : Outcome HttpQueryResponse :=
  Rejected (HttpQueryError 400 "Must provide query string."
              (Some {["Content-Type" := "text/plain"]})).

(** A parser that rejects the one-character text of the spec's example
    and reads anything else as itself. *)
Definition parse (s : string) : Outcome string :=
  if String.eqb s "{"
  then Rejected (OtherError "SyntaxError" "Unexpected end of JSON input"
                   None None)
  else Resolved s.

Definition imports
    (run : SampleEvent -> LambdaContext -> @HttpQueryRequest string string unit ->
           Outcome HttpQueryResponse)
    (upload : option (UploadRequest -> FileUploadOptions -> Outcome string))
    : @Imports string string unit :=
  {| runHttpQuery := run;
     processFileUploads := upload;
     formatApolloErrors := fun es _ => es;
     renderPlaygroundPage :=
       fun opts => "<html>" ++ default "" (opts !! "endpoint") ++ "</html>";
     JSON_parse := parse;
     String_of := fun p => p;
     Boolean_of := Str.truthy |}.

(** An upload processor that resolves to the chunk it was given, and one
    that fails. *)
Definition uploadOk (rq : UploadRequest) (cfg : FileUploadOptions)
    : Outcome string :=
  Resolved (chunk rq).

Definition uploadFails (rq : UploadRequest) (cfg : FileUploadOptions)
    : Outcome string :=
  Rejected (OtherError "PayloadTooLargeError" "File truncated" None None).

(** An upload processor that resolves to a falsy value, the empty text. *)
Definition uploadNothing (rq : UploadRequest) (cfg : FileUploadOptions)
    : Outcome string :=
  Resolved "".

(** An engine that refuses every query with an error that has the name
    and the properties of a structured error without being an instance of
    the class the bridge imports. *)
Definition refuseLookalike (ev : SampleEvent) (ctx : LambdaContext)
    (rq : @HttpQueryRequest string string unit) : Outcome HttpQueryResponse :=
  Rejected (OtherError "HttpQueryError" "Must provide query string."
              (Some 400) (Some {["Content-Type" := "text/plain"]})).

Definition server (pg : option (gmap string string))
    : @ApolloServerBase string unit :=
  {| willStart := Resolved tt;
     playgroundOptions := pg;
     requestOptions := {| formatter := None; debug := None |};
     graphQLServerOptions := fun _ _ => Resolved tt |}.

Definition corsWith (og : option OriginOption) : CorsOptions :=
  {| origin := og;
     methods := Some (Many ["GET"; "POST"]);
     allowedHeaders := None;
     exposedHeaders := None;
     credentials := Some true;
     maxAge := Some (Num.Finite false 6 3) |}.

(** The same policy with a max-age of 1e21. *)
Definition corsWithLongAge : CorsOptions :=
  {| origin := None;
     methods := None;
     allowedHeaders := None;
     exposedHeaders := None;
     credentials := None;
     maxAge := Some (Num.Finite false 1 22) |}.

Definition options (c : option CorsOptions) (isAsync : bool)
    : CreateHandlerOptions :=
  {| cors := c; async := Some isAsync; uploadsConfig := None |}.

Definition request (method : string) (p : option string)
    (hdrs : PropertyList) (b : option string) (rc : option RequestContext)
    : HostEvent :=
  {| httpMethod := method;
     path := p;
     headers := hdrs;
     queryStringParameters := Some {["query" := "{ __typename }"]};
     body := b;
     isBase64Encoded := false;
     requestContext := rc |}.

Definition lambdaContext (waits : bool) : LambdaContext :=
  {| callbackWaitsForEmptyEventLoop := waits; awsRequestId := "req-1" |}.

Definition graphqlGet : HostEvent :=
  request "GET" (Some "/graphql") [("Origin", "https://a.example")] None None.

Definition preflight : HostEvent :=
  request "OPTIONS" (Some "/graphql")
    [("Origin", "https://a.example");
     ("Access-Control-Request-Headers", "content-type")] None None.

Definition browserGet : HostEvent :=
  request "GET" (Some "/graphql")
    [("Accept", "text/html,application/xhtml+xml")] None None.

Definition browserGetNoPath : HostEvent :=
  request "GET" None [("accept", "text/html")] None
    (Some {| requestPath := Some "/prod/graphql" |}).

Definition jsonPost (b : option string) : SampleEvent :=
  {| httpMethod := "POST";
     path := Some "/graphql";
     headers := [("Content-Type", "application/json")];
     queryStringParameters := None;
     body := Original b;
     isBase64Encoded := false;
     requestContext := None |}.

Definition plainPost : HostEvent :=
  request "POST" (Some "/graphql") [("Content-Type", "text/plain")]
    (Some "{ me }") None.

Definition multipartPost : HostEvent :=
  request "POST" (Some "/graphql")
    [("Content-Type", "multipart/form-data; boundary=x")]
    (Some "LS14LS0=") None.

Definition devPlayground : gmap string string :=
  {["endpoint" := "/dev/graphql"]}.

(** A server whose startup fails. *)
Definition serverFailing : @ApolloServerBase string unit :=
  {| willStart := Rejected (OtherError "Error" "schema failed to load" None None);
     playgroundOptions := None;
     requestOptions := {| formatter := None; debug := None |};
     graphQLServerOptions := fun _ _ => Resolved tt |}.

(** A browser's GET that spells the accept header in capitals. *)
Definition browserGetCapitals : HostEvent :=
  request "GET" (Some "/graphql") [("ACCEPT", "text/html")] None None.

Definition emptyPost : HostEvent :=
  request "POST" (Some "/graphql") [("Content-Type", "application/json")]
    None None.

End Sample.

(** * Properties *)

Section Properties.

Context {Json Processed Options : Type}.

Abbreviation BridgeEvent := (APIGatewayProxyEvent (@Body Processed)).

Implicit Types (I : @Imports Json Processed Options).
Implicit Types (S : @ApolloServerBase Processed Options).
Implicit Types (o : CreateHandlerOptions) (event : HostEvent).
Implicit Types (context : LambdaContext).

(** ** Strings and raw objects *)

Lemma Str_truthy_true s : Str.truthy s = true <-> s <> "".
Proof. destruct s; simpl; split; intros; congruence. Qed.

Lemma Str_mem_In x xs : Str.mem x xs = true <-> In x xs.
Proof.
  unfold Str.mem. rewrite existsb_exists. split.
  - intros (y & Hy & E). apply String.eqb_eq in E. now subst.
  - intros H. exists x. split; [assumption | apply String.eqb_refl].
Qed.

Lemma Str_includes_nonempty sub s :
  sub <> "" -> Str.includes sub s = true -> Str.truthy s = true.
Proof. destruct s, sub; simpl; intros; congruence. Qed.

(** ** Header objects *)

Lemma spread_lookup (a b : HeaderObject) (k : string) :
  spread a b !! k = match b !! k with Some v => Some v | None => a !! k end.
Proof.
  unfold spread. rewrite lookup_union.
  destruct (b !! k), (a !! k); reflexivity.
Qed.

Lemma spread_empty_l (b : HeaderObject) : spread ∅ b = b.
Proof. unfold spread. apply (right_id_L ∅ (∪)). Qed.

Lemma spread_keeps_right (a b : HeaderObject) k v :
  b !! k = Some v -> spread a b !! k = Some v.
Proof. intros H. rewrite spread_lookup, H. reflexivity. Qed.

Lemma Headers_set_lookup_ne name v (h : Headers.t) k :
  Str.toLowerCase name <> k -> Headers.set name v h !! k = h !! k.
Proof. intros H. unfold Headers.set. now rewrite lookup_insert_ne. Qed.

Lemma Headers_set_lookup_eq name v (h : Headers.t) :
  Headers.set name v h !! Str.toLowerCase name = Some v.
Proof. unfold Headers.set. apply lookup_insert_eq. Qed.

Lemma set_joined_lookup_ne name v (h : Headers.t) k :
  Str.toLowerCase name <> k -> set_joined name v h !! k = h !! k.
Proof.
  intros H. unfold set_joined.
  destruct v as [[s|xs]|]; [destruct (Str.truthy s)| |];
    auto using Headers_set_lookup_ne.
Qed.

(** ** Asynchronous computations *)

Lemma settled_bind {A B} (m : @Async Json Processed Options A)
    (k : A -> @Async Json Processed Options B) :
  settled (bind m k) =
  match settled m with
  | Resolved a => settled (k a)
  | Rejected e => Rejected e
  end.
Proof.
  destruct m as [t [a|e]]; simpl; [|reflexivity].
  destruct (k a); reflexivity.
Qed.

Lemma trace_bind {A B} (m : @Async Json Processed Options A)
    (k : A -> @Async Json Processed Options B) :
  trace (bind m k) =
  (trace m ++ match settled m with
              | Resolved a => trace (k a)
              | Rejected _ => []
              end)%list.
Proof.
  destruct m as [t [a|e]]; simpl; [|now rewrite app_nil_r].
  destruct (k a); reflexivity.
Qed.

Lemma settled_try_catch {A} (m : @Async Json Processed Options A) h :
  settled (try_catch m h) =
  match settled m with
  | Resolved a => Resolved a
  | Rejected e => settled (h e)
  end.
Proof.
  destruct m as [t [a|e]]; simpl; [reflexivity|].
  destruct (h e); reflexivity.
Qed.

Lemma trace_try_catch {A} (m : @Async Json Processed Options A) h :
  trace (try_catch m h) =
  (trace m ++ match settled m with
              | Resolved _ => []
              | Rejected e => trace (h e)
              end)%list.
Proof.
  destruct m as [t [a|e]]; simpl; [now rewrite app_nil_r|].
  destruct (h e); reflexivity.
Qed.

Lemma async_eta {A} (m : @Async Json Processed Options A) :
  m = (trace m, settled m).
Proof. destruct m; reflexivity. Qed.

(** ** The handlers, case by case *)

(** What one run of the bridge does. *)
Lemma graphqlHandler_run I (options : Options) (ev : BridgeEvent) context :
  graphqlHandler I options ev context =
  if isPost ev && negb (truthy_body I (body ev)) then ([], Resolved postBodyMissing)
  else
    let hdrs := Headers.of_object (headers ev) in
    match extractQuery I ev (Headers.get "content-type" hdrs) with
    | inl early => ([], Resolved early)
    | inr query =>
        let rq := httpQueryRequest options ev query hdrs in
        ([CallRunHttpQuery ev context rq],
         bridgeResult (runHttpQuery I ev context rq))
    end.
Proof.
  unfold graphqlHandler.
  destruct (isPost ev && negb (truthy_body I (body ev))); [reflexivity|].
  cbv zeta. destruct (extractQuery I ev _) as [early|query]; [reflexivity|].
  unfold try_catch, bind, await, ret, mapQueryError, throw.
  destruct (runHttpQuery I ev context _) as [r|[s m h|n m|es]]; reflexivity.
Qed.

(** What the upload step does. *)
Lemma uploadStep_run S I o event (eh : Headers.t) :
  uploadStep S I o event eh =
  match processFileUploads I, body event, Headers.get "content-type" eh with
  | Some process, Some b, Some ct =>
      if isMultipart (Some ct) then
        let request := uploadRequest event ct b in
        match process request (uploadsConfigOrEmpty o) with
        | Resolved p =>
            ([CallProcessFileUploads request (uploadsConfigOrEmpty o)],
             Resolved (withBody event (uploadHeaders request) (Uploaded p)))
        | Rejected e =>
            ([CallProcessFileUploads request (uploadsConfigOrEmpty o);
              CallFormatApolloErrors [e]],
             Rejected (ErrorArray (formatApolloErrors I [e] (formatOptions S))))
        end
      else ([], Resolved (asBridgeEvent event))
  | _, _, _ => ([], Resolved (asBridgeEvent event))
  end.
Proof.
  unfold uploadStep, handleFileUploads, asBridgeEvent.
  destruct (processFileUploads I) as [process|]; [|reflexivity].
  destruct (body event) as [b|] eqn:Hb; [|reflexivity].
  destruct (Headers.get "content-type" eh) as [ct|]; [|reflexivity].
  destruct (isMultipart (Some ct)); [|reflexivity].
  cbv zeta. unfold try_catch, bind, await, ret.
  destruct (process _ _); reflexivity.
Qed.

(** What the primary path does. *)
Lemma resultPromise_run S I o event (eh : Headers.t) (corsObject : HeaderObject)
    context :
  resultPromise S I o event eh corsObject context =
  match willStart S with
  | Rejected e => ([AwaitWillStart], Rejected e)
  | Resolved _ =>
      match uploadStep S I o event eh with
      | (t1, Rejected e) => (AwaitWillStart :: t1, Rejected e)
      | (t1, Resolved ev') =>
          let c := CallCreateGraphQLServerOptions ev' context in
          match createGraphQLServerOptions S ev' context with
          | Rejected e => (AwaitWillStart :: t1 ++ [c], Rejected e)
          | Resolved options =>
              let run := graphqlHandler I options ev' context in
              (AwaitWillStart :: t1 ++ c :: trace run,
               Outcome_map (mergeCors corsObject) (settled run))
          end
      end
  end%list.
Proof.
  unfold resultPromise, bind, await, ret, throw, graphqlLambda.
  destruct (willStart S) as [[]|e]; [|reflexivity].
  destruct (uploadStep S I o event eh) as [t1 [ev'|e]]; [|reflexivity].
  cbv zeta.
  destruct (createGraphQLServerOptions S ev' context) as [options|e];
    [|reflexivity].
  destruct (graphqlHandler I options ev' context) as [t2 [r|e]]; simpl;
    now rewrite ?app_nil_r.
Qed.

(** The primary path begins by awaiting the engine's startup. *)
Lemma resultPromise_awaits_start S I o event (eh : Headers.t)
    (corsObject : HeaderObject) context :
  exists t,
    trace (resultPromise S I o event eh corsObject context) = AwaitWillStart :: t.
Proof.
  rewrite resultPromise_run.
  destruct (willStart S); [|now eexists].
  destruct (uploadStep S I o event eh) as [t1 [ev'|e]]; [|now eexists].
  cbv zeta. destruct (createGraphQLServerOptions S ev' context); now eexists.
Qed.

(** ** CORS headers *)

(** Header names in the source are literals: lower-casing them computes. *)
Ltac lower_names :=
  repeat match goal with
  | |- context [Str.toLowerCase ?s] =>
      let x := eval vm_compute in (Str.toLowerCase s) in
      change (Str.toLowerCase s) with x
  end.

Ltac other_name Hk :=
  let E := fresh "E" in
  lower_names; intros E; apply Hk; rewrite <- E; simpl; tauto.

Lemma corsHeaders_lookup_outside c k :
  ~ In k baseNames -> corsHeaders c !! k = None.
Proof.
  intros Hk. destruct c as [c|]; [|apply lookup_empty].
  unfold corsHeaders.
  destruct (maxAge c); destruct (truthy_bool (credentials c));
    rewrite ?Headers_set_lookup_ne by other_name Hk;
    rewrite !set_joined_lookup_ne by other_name Hk;
    apply lookup_empty.
Qed.

Lemma requestCorsHeaders_lookup_outside c (eh : Headers.t) k :
  ~ In k requestNames -> requestCorsHeaders c eh !! k = None.
Proof.
  intros Hk.
  assert (Hb : corsHeaders c !! k = None).
  { apply corsHeaders_lookup_outside. intros H. apply Hk. now right. }
  unfold requestCorsHeaders, Headers.copy.
  destruct c as [c|]; [|exact Hb].
  destruct (truthy_origin (origin c)); [|exact Hb].
  cbv zeta.
  destruct (Headers.get "access-control-request-headers" eh) as [r|];
    [destruct (negb _ && Str.truthy r)|];
    rewrite ?Headers_set_lookup_ne by other_name Hk;
    (destruct (origin c) as [[b|s|xs]|]; [| | |exact Hb]);
    try (destruct (Headers.get "origin" eh) as [og|]; [|exact Hb]);
    try match goal with |- context [if ?b then _ else _] => destruct b end;
    rewrite ?Headers_set_lookup_ne by other_name Hk; exact Hb.
Qed.

Lemma corsHeaders_no_allow_origin c :
  corsHeaders c !! "access-control-allow-origin" = None.
Proof.
  apply corsHeaders_lookup_outside. simpl. intuition discriminate.
Qed.

Lemma corsHeaders_allow_headers_unset c :
  truthy_sl (allowedHeaders c) = false ->
  corsHeaders (Some c) !! "access-control-allow-headers" = None.
Proof.
  intros H. unfold corsHeaders.
  assert (E : forall h : Headers.t,
             set_joined "access-control-allow-headers" (allowedHeaders c) h = h).
  { intros h. unfold set_joined.
    destruct (allowedHeaders c) as [[s|xs]|]; simpl in H;
      [now rewrite H | discriminate | reflexivity]. }
  rewrite E.
  destruct (maxAge c); destruct (truthy_bool (credentials c));
    rewrite ?Headers_set_lookup_ne by (lower_names; discriminate);
    rewrite !set_joined_lookup_ne by (lower_names; discriminate);
    apply lookup_empty.
Qed.

(** A request only ever adds to the base headers. *)
Lemma requestCorsHeaders_keeps_base c (eh : Headers.t) k v :
  corsHeaders c !! k = Some v -> requestCorsHeaders c eh !! k = Some v.
Proof.
  intros Hb. unfold requestCorsHeaders, Headers.copy.
  destruct c as [c|]; [|exact Hb].
  destruct (truthy_origin (origin c)); [|exact Hb].
  cbv zeta.
  assert (Ho : "access-control-allow-origin" <> k).
  { intros <-. rewrite corsHeaders_no_allow_origin in Hb. discriminate. }
  assert (Hin : forall (h : Headers.t) r,
             h !! k = Some v ->
             (if negb (truthy_sl (allowedHeaders c)) && Str.truthy r
              then Headers.set "access-control-allow-headers" r h else h) !! k
             = Some v).
  { intros h r Hh.
    destruct (truthy_sl (allowedHeaders c)) eqn:Ha; simpl; [exact Hh|].
    destruct (Str.truthy r); [|exact Hh].
    rewrite Headers_set_lookup_ne; [exact Hh|].
    lower_names. intros <-. rewrite (corsHeaders_allow_headers_unset c Ha) in Hb.
    discriminate. }
  assert (Hor : forall og (b : bool),
             (if b then Headers.set "access-control-allow-origin" og
                         (corsHeaders (Some c))
              else corsHeaders (Some c)) !! k = Some v).
  { intros og []; [|exact Hb]. now rewrite Headers_set_lookup_ne. }
  destruct (Headers.get "access-control-request-headers" eh) as [r|].
  - apply Hin.
    destruct (origin c) as [[b|s|xs]|]; [| apply (Hor s true) | |exact Hb];
      (destruct (Headers.get "origin" eh) as [og|]; [apply Hor|exact Hb]).
  - destruct (origin c) as [[b|s|xs]|]; [| apply (Hor s true) | |exact Hb];
      (destruct (Headers.get "origin" eh) as [og|]; [apply Hor|exact Hb]).
Qed.

Lemma requestCorsHeadersObject_no_content_type c (eh : Headers.t) :
  requestCorsHeadersObject c eh !! "Content-Type" = None.
Proof.
  apply requestCorsHeaders_lookup_outside. simpl. intuition discriminate.
Qed.

(** The [Access-Control-Allow-Origin] header of a request, read off the
    policy and the request's [Origin]. *)
Lemma allow_origin_eval c (eh : Headers.t) :
  Headers.get "access-control-allow-origin" (requestCorsHeaders (Some c) eh) =
  if truthy_origin (origin c) then
    match origin c with
    | Some (OriginString s) => Some s
    | Some (OriginBool _) =>
        match Headers.get "origin" eh with
        | Some x => if Str.truthy x then Some x else None
        | None => None
        end
    | Some (OriginList xs) =>
        match Headers.get "origin" eh with
        | Some x => if Str.truthy x && Str.mem x xs then Some x else None
        | None => None
        end
    | None => None
    end
  else None.
Proof.
  pose proof (corsHeaders_no_allow_origin (Some c)) as Hb.
  unfold Headers.get at 1. lower_names.
  unfold requestCorsHeaders, Headers.copy.
  destruct (truthy_origin (origin c)); [|exact Hb].
  cbv zeta.
  assert (Hout : forall (h : Headers.t),
    match Headers.get "access-control-request-headers" eh with
    | Some r =>
        if negb (truthy_sl (allowedHeaders c)) && Str.truthy r
        then Headers.set "access-control-allow-headers" r h else h
    | None => h
    end !! "access-control-allow-origin" = h !! "access-control-allow-origin").
  { intros h. destruct (Headers.get "access-control-request-headers" eh) as [r|];
      [|reflexivity].
    destruct (negb _ && Str.truthy r); [|reflexivity].
    apply Headers_set_lookup_ne. lower_names. discriminate. }
  rewrite Hout.
  destruct (origin c) as [[b|s|xs]|]; [| apply lookup_insert_eq | |exact Hb];
    (destruct (Headers.get "origin" eh) as [x|]; [|exact Hb]);
    match goal with |- context [if ?b then _ else _] => destruct b end;
    first [apply lookup_insert_eq | exact Hb].
Qed.

(** C2 (amended). A non-empty literal origin is the header's value whatever
    the request's [Origin]; with origin [true] the header repeats a
    non-empty request [Origin] and is left out when the request has none;
    with a list the header repeats a non-empty request [Origin] that is in
    the list and is left out when the request's [Origin] is not in the list
    or is missing.  An empty literal origin, and an empty request [Origin]
    under [true] or a list, leave the header out. *)
Theorem allow_origin_header c (eh : Headers.t) :
  let allowOrigin :=
    Headers.get "access-control-allow-origin" (requestCorsHeaders (Some c) eh) in
  (forall s, origin c = Some (OriginString s) -> s <> "" ->
     allowOrigin = Some s) /\
  (forall x, origin c = Some (OriginBool true) ->
     Headers.get "origin" eh = Some x -> x <> "" -> allowOrigin = Some x) /\
  (origin c = Some (OriginBool true) ->
     Headers.get "origin" eh = None -> allowOrigin = None) /\
  (forall xs x, origin c = Some (OriginList xs) ->
     Headers.get "origin" eh = Some x -> x <> "" -> In x xs ->
     allowOrigin = Some x) /\
  (forall xs x, origin c = Some (OriginList xs) ->
     Headers.get "origin" eh = Some x -> ~ In x xs -> allowOrigin = None) /\
  (forall xs, origin c = Some (OriginList xs) ->
     Headers.get "origin" eh = None -> allowOrigin = None) /\
  (origin c = Some (OriginString "") -> allowOrigin = None) /\
  (Headers.get "origin" eh = Some "" ->
     (forall s, origin c <> Some (OriginString s)) -> allowOrigin = None).
Proof.
  cbv zeta. rewrite allow_origin_eval.
  repeat apply conj.
  - intros s -> Hs. simpl. apply Str_truthy_true in Hs. now rewrite Hs.
  - intros x -> -> Hx. simpl. apply Str_truthy_true in Hx. now rewrite Hx.
  - intros -> ->. reflexivity.
  - intros xs x -> -> Hx Hin. simpl.
    apply Str_truthy_true in Hx. apply Str_mem_In in Hin.
    now rewrite Hx, Hin.
  - intros xs x -> -> Hin. simpl.
    destruct (Str.mem x xs) eqn:E.
    + apply Str_mem_In in E. contradiction.
    + now rewrite andb_false_r.
  - intros xs -> ->. reflexivity.
  - intros ->. reflexivity.
  - intros -> Hs.
    destruct (origin c) as [[b|s|xs]|]; simpl;
      [now destruct b | now destruct (Hs s) | reflexivity | reflexivity].
Qed.

(** ** The Execution Bridge on POST requests *)

(** C3 (amended). On a POST request an empty or absent body gives status
    500 with the text [POST body missing.] and no collaborator is called,
    in the present bridge and in both earlier handlers.  In the present
    bridge, the one [createHandler] awaits, a non-empty body under a
    content type starting with [application/json] that fails to parse
    gives status 415 with [Error parsing JSON POST body], and a non-empty
    string body under any other content type, or none, is the query
    payload as it is.  Both earlier handlers of [lambdaApollo.ts] hand
    [JSON.parse(body)] to the engine for every non-empty POST body,
    whatever the content type; a parse failure leaves the callback
    handler as a thrown error and settles the promise handler's promise
    through its [catch], in both without a call of the engine, the 415
    result being built in neither. *)
Theorem post_body_handling I (options : Options) context :
  (forall ev : BridgeEvent, httpMethod ev = "POST" ->
     let contentType :=
       Headers.get "content-type" (Headers.of_object (headers ev)) in
     (truthy_body I (body ev) = false ->
        graphqlHandler I options ev context = ([], Resolved postBodyMissing)) /\
     (forall e, truthy_body I (body ev) = true ->
        isJsonContentType contentType = true ->
        JSON_parse_body I (body ev) = Rejected e ->
        graphqlHandler I options ev context = ([], Resolved jsonParseFailed)) /\
     (forall s, body ev = Original (Some s) -> s <> "" ->
        isJsonContentType contentType = false ->
        exists rq,
          trace (graphqlHandler I options ev context)
            = [CallRunHttpQuery ev context rq] /\
          rqQuery rq = QueryBody (Original (Some s)))) /\
  (forall event, httpMethod event = "POST" ->
     (truthy_opt (body event) = false ->
        legacyEnd (legacy_graphqlLambda I options event context)
          = Called None (Some (loose postBodyMissing)) /\
        legacyCalls (legacy_graphqlLambda I options event context) = [] /\
        legacy_graphqlLambdaAsync I options event context
          = ([], Resolved (loose postBodyMissing))) /\
     (forall b, body event = Some b -> b <> "" ->
        match JSON_parse I b with
        | Resolved j =>
            (exists ev' ctx' rq,
               legacyCalls (legacy_graphqlLambda I options event context)
                 = [CallRunHttpQuery ev' ctx' rq] /\
               rqQuery rq = QueryJson j) /\
            (exists ev' ctx' rq,
               fst (legacy_graphqlLambdaAsync I options event context)
                 = [CallRunHttpQuery ev' ctx' rq] /\
               rqQuery rq = QueryJson j)
        | Rejected e =>
            legacyEnd (legacy_graphqlLambda I options event context) = Threw e /\
            legacyCalls (legacy_graphqlLambda I options event context) = [] /\
            legacy_graphqlLambdaAsync I options event context
              = ([], if namedHttpQueryError e then Resolved (ofError e)
                     else Rejected e)
        end)).
Proof.
  split.
  - intros ev Hm. cbv zeta.
    assert (Hp : isPost ev = true) by (unfold isPost; now rewrite Hm).
    repeat apply conj.
    + intros Hb. rewrite graphqlHandler_run, Hp, Hb. reflexivity.
    + intros e Hb Hj He. rewrite graphqlHandler_run, Hp, Hb. simpl.
      unfold extractQuery. rewrite Hp, Hb, Hj, He. reflexivity.
    + intros s Hs Hne Hj.
      assert (Hb : truthy_body I (body ev) = true).
      { rewrite Hs. simpl. now apply Str_truthy_true. }
      rewrite graphqlHandler_run, Hp, Hb. simpl.
      unfold extractQuery. rewrite Hp, Hb, Hj. simpl.
      eexists. split; [reflexivity|]. simpl. now rewrite Hs.
  - intros event Hm.
    assert (Hp : isPost event = true) by (unfold isPost; now rewrite Hm).
    split.
    + intros Hb. unfold legacy_graphqlLambda, legacy_graphqlLambdaAsync.
      rewrite Hp, Hb. simpl. auto.
    + intros b Hb Hne.
      assert (Ht : Str.truthy b = true) by now apply Str_truthy_true.
      unfold legacy_graphqlLambda, legacy_graphqlLambdaAsync, legacyQuery.
      rewrite Hp, Hb. simpl. rewrite Ht. simpl.
      destruct (JSON_parse I b) as [j|e]; simpl.
      * split; do 3 eexists; split; reflexivity.
      * auto.
Qed.

(** ** The handler's three paths *)

Lemma delivered_deliver (b : bool) (x : Outcome APIGatewayProxyResult) :
  delivered (deliver b x) = x.
Proof. destruct b; reflexivity. Qed.

Lemma spread_empty_r (a : HeaderObject) : spread a ∅ = a.
Proof. unfold spread. apply (left_id_L ∅ (∪)). Qed.

Lemma spread_empty_r_any (b : HeaderObject) : spread (spread_opt None) b = b.
Proof. apply spread_empty_l. Qed.

(** The run of the handler on a preflight request. *)
Lemma preflight_headers_only S I o event context :
  httpMethod event = "OPTIONS" ->
  delivered (delivery (createHandler S I o event context))
    = Resolved {| resultBody := ""; statusCode := 204;
                  resultHeaders :=
                    Some (requestCorsHeadersObject (cors o)
                            (Headers.of_object (headers event))) |} /\
  calls (createHandler S I o event context) = [].
Proof.
  intros Hm. unfold createHandler. rewrite Hm. simpl.
  now rewrite delivered_deliver, spread_empty_l.
Qed.

(** C1. Every header of the handler's base CORS headers is a header, with
    the same value, of every result the handler delivers: the preflight
    result, the tool page, and whatever the bridge returned on the primary
    path (a successful execution, a mapped structured error, or one of the
    two plain-text error results). *)
Theorem base_cors_headers_in_every_response S I o event context r k v :
  delivered (delivery (createHandler S I o event context)) = Resolved r ->
  corsHeaders (cors o) !! k = Some v ->
  exists h, resultHeaders r = Some h /\ h !! k = Some v.
Proof.
  intros Hr Hb.
  pose proof (requestCorsHeaders_keeps_base (cors o)
                (Headers.of_object (headers event)) k v Hb) as Hc.
  unfold createHandler in Hr. cbv zeta in Hr.
  destruct (String.eqb (httpMethod event) "OPTIONS").
  - simpl in Hr. rewrite delivered_deliver in Hr. injection Hr as <-.
    eexists. split; [reflexivity|]. rewrite spread_empty_l. exact Hc.
  - destruct (toolPage S I _ event) as [[opts res]|] eqn:Ht.
    + simpl in Hr. rewrite delivered_deliver in Hr. injection Hr as ->.
      unfold toolPage in Ht.
      destruct (playgroundOptions S); [|discriminate].
      destruct (_ && _); [|discriminate].
      injection Ht as _ <-. simpl.
      eexists. split; [reflexivity|]. now apply spread_keeps_right.
    + simpl in Hr. rewrite delivered_deliver, resultPromise_run in Hr.
      destruct (willStart S); [|discriminate].
      destruct (uploadStep S I o event _) as [t1 [ev'|e]]; [|discriminate].
      cbv zeta in Hr.
      destruct (createGraphQLServerOptions S ev' _); [|discriminate].
      destruct (graphqlHandler I _ ev' _) as [t2 [r0|e]]; [|discriminate].
      simpl in Hr. injection Hr as <-. simpl.
      eexists. split; [reflexivity|]. now apply spread_keeps_right.
Qed.

(** C5. A request with method OPTIONS gets status 204, an empty body and
    exactly the request's CORS headers, through the promise in async mode
    and through the callback otherwise, and no collaborator is called:
    neither the engine nor its startup is touched. *)
Theorem preflight_short_circuit S I o event context :
  httpMethod event = "OPTIONS" ->
  let inv := createHandler S I o event context in
  let result :=
    {| resultBody := ""; statusCode := 204;
       resultHeaders :=
         Some (requestCorsHeadersObject (cors o)
                 (Headers.of_object (headers event))) |} in
  (truthy_bool (async o) = true ->
   delivery inv = ReturnedPromise (Resolved result)) /\
  (truthy_bool (async o) = false ->
   delivery inv = CallbackInvoked (Resolved result)) /\
  calls inv = [].
Proof.
  intros Hm. unfold createHandler. rewrite Hm. simpl.
  rewrite spread_empty_l.
  repeat split; intros ->; reflexivity.
Qed.

(** ** The tool page *)

(** When the branch is taken, the handler's run is the rendered page. *)
Lemma createHandler_tool_page S I o event context pg :
  playgroundOptions S = Some pg ->
  httpMethod event = "GET" ->
  acceptsHtml event = true ->
  let corsObject :=
    requestCorsHeadersObject (cors o) (Headers.of_object (headers event)) in
  let opts := playgroundRenderPageOptions pg event in
  createHandler S I o event context =
  {| delivery :=
       deliver (truthy_bool (async o))
         (Resolved {| resultBody := renderPlaygroundPage I opts;
                      statusCode := 200;
                      resultHeaders :=
                        Some (spread {["Content-Type" := "text/html"]}
                                corsObject) |});
     calls := [CallRenderPlaygroundPage opts];
     contextAfter := context |}.
Proof.
  intros Hpg Hm Ha. unfold createHandler, toolPage.
  rewrite Hpg, Hm, Ha. reflexivity.
Qed.

Lemma playgroundRenderPageOptions_endpoint (pg : gmap string string) event :
  playgroundRenderPageOptions pg event !! "endpoint" =
  match pg !! "endpoint" with
  | Some e => Some e
  | None => Some (toolEndpoint event)
  end.
Proof.
  unfold playgroundRenderPageOptions. rewrite spread_lookup.
  destruct (pg !! "endpoint"); [reflexivity|]. apply lookup_singleton_eq.
Qed.

Lemma toolEndpoint_path event p :
  path event = Some p -> p <> "" -> toolEndpoint event = p.
Proof.
  intros Hp Hne. apply Str_truthy_true in Hne.
  unfold toolEndpoint, or_else. rewrite Hp, Hne. simpl. now rewrite Hne.
Qed.

(** C6 (amended). With a tool configuration present, a GET request whose
    accept header, read under the spellings [Accept] and [accept] only,
    contains [text/html] gets status 200, the rendered page as body, and
    the header [Content-Type: text/html] besides the request's CORS
    headers; the renderer is the only collaborator called.  The endpoint
    the renderer receives is the tool configuration's own [endpoint] when
    it has one, and otherwise the request path when that is not empty. *)
Theorem tool_page_short_circuit S I o event context pg a :
  playgroundOptions S = Some pg ->
  httpMethod event = "GET" ->
  or_else (Obj.get "Accept" (headers event)) (Obj.get "accept" (headers event))
    = Some a ->
  Str.includes "text/html" a = true ->
  let inv := createHandler S I o event context in
  let corsObject :=
    requestCorsHeadersObject (cors o) (Headers.of_object (headers event)) in
  exists opts h,
    delivery inv =
      deliver (truthy_bool (async o))
        (Resolved {| resultBody := renderPlaygroundPage I opts;
                     statusCode := 200; resultHeaders := Some h |}) /\
    h = <["Content-Type" := "text/html"]> corsObject /\
    h !! "Content-Type" = Some "text/html" /\
    (forall k v, corsObject !! k = Some v -> h !! k = Some v) /\
    calls inv = [CallRenderPlaygroundPage opts] /\
    (forall e, pg !! "endpoint" = Some e -> opts !! "endpoint" = Some e) /\
    (forall p, pg !! "endpoint" = None -> path event = Some p -> p <> "" ->
       opts !! "endpoint" = Some p).
Proof.
  intros Hpg Hm Ha Hinc. cbv zeta.
  assert (Hacc : acceptsHtml event = true).
  { unfold acceptsHtml, acceptHeader. rewrite Ha, Hinc.
    rewrite (Str_includes_nonempty "text/html" a); [reflexivity| |exact Hinc].
    discriminate. }
  rewrite (createHandler_tool_page S I o event context pg Hpg Hm Hacc).
  pose proof (requestCorsHeadersObject_no_content_type (cors o)
                (Headers.of_object (headers event))) as Hct.
  set (corsObject := requestCorsHeadersObject _ _) in *.
  assert (Hh : spread {["Content-Type" := "text/html"]} corsObject
               = <["Content-Type" := "text/html"]> corsObject).
  { apply map_eq. intros k. rewrite spread_lookup.
    destruct (decide (k = "Content-Type")) as [->|Hk].
    - now rewrite Hct, lookup_singleton_eq, lookup_insert_eq.
    - rewrite lookup_insert_ne by congruence.
      rewrite lookup_singleton_ne by congruence.
      now destruct (corsObject !! k). }
  exists (playgroundRenderPageOptions pg event),
         (<["Content-Type" := "text/html"]> corsObject).
  simpl. rewrite Hh. repeat apply conj; try reflexivity.
  - apply lookup_insert_eq.
  - intros k v Hk. rewrite lookup_insert_ne; [exact Hk|].
    intros <-. rewrite Hct in Hk. discriminate.
  - intros e He. now rewrite playgroundRenderPageOptions_endpoint, He.
  - intros p He Hp Hne.
    rewrite playgroundRenderPageOptions_endpoint, He.
    now rewrite (toolEndpoint_path event p Hp Hne).
Qed.

(** C10 (amended). In the tool-page branch, when the event's path is absent
    or empty the endpoint the handler supplies is [requestContext.path],
    and [/] when that is absent or empty as well; the renderer receives
    that endpoint unless the tool configuration has an [endpoint] of its
    own, which it then receives instead; either way the page is delivered
    with status 200. *)
Theorem tool_page_endpoint_fallback S I o event context pg :
  playgroundOptions S = Some pg ->
  httpMethod event = "GET" ->
  acceptsHtml event = true ->
  truthy_opt (path event) = false ->
  let inv := createHandler S I o event context in
  let fromContext :=
    match requestContext event with
    | Some rc => requestPath rc
    | None => None
    end in
  let supplied :=
    match fromContext with
    | Some p => if Str.truthy p then p else "/"
    | None => "/"
    end in
  toolEndpoint event = supplied /\
  exists opts r,
    delivered (delivery inv) = Resolved r /\
    statusCode r = 200 /\
    resultBody r = renderPlaygroundPage I opts /\
    calls inv = [CallRenderPlaygroundPage opts] /\
    opts !! "endpoint" =
      match pg !! "endpoint" with
      | Some e => Some e
      | None => Some supplied
      end.
Proof.
  intros Hpg Hm Ha Hp. cbv zeta.
  assert (He : toolEndpoint event =
               match match requestContext event with
                     | Some rc => requestPath rc
                     | None => None
                     end with
               | Some p => if Str.truthy p then p else "/"
               | None => "/"
               end).
  { unfold toolEndpoint, or_else.
    destruct (path event) as [p|]; simpl in Hp; [rewrite Hp|];
      (destruct (match requestContext event with
                 | Some rc => requestPath rc
                 | None => None
                 end) as [q|]; [destruct (Str.truthy q) eqn:Hq; simpl; now rewrite ?Hq
                               |reflexivity]). }
  split; [exact He|].
  rewrite (createHandler_tool_page S I o event context pg Hpg Hm Ha).
  do 2 eexists. simpl. rewrite delivered_deliver.
  repeat apply conj; try reflexivity.
  now rewrite playgroundRenderPageOptions_endpoint, He.
Qed.

(** ** Callback mode and promise mode *)

Lemma setCallbackWaits_same context :
  callbackWaitsForEmptyEventLoop context = false ->
  setCallbackWaits false context = context.
Proof. destruct context as [w i]. simpl. now intros ->. Qed.

(** C9 (amended). Callback mode delivers through the callback, promise
    mode through the returned promise.  For the same event, callback mode
    delivers what promise mode delivers when the invocation context has
    its wait flag cleared, after the same collaborator calls: callback
    mode clears that flag before the engine sees the context.  So the two
    modes deliver the same status, body and headers (or the same error)
    whenever the flag is already clear, and on the preflight and tool-page
    paths whatever the flag. *)
Theorem delivery_modes_agree S I o event context :
  let sync :=
    {| cors := cors o; async := Some false; uploadsConfig := uploadsConfig o |} in
  let asyn :=
    {| cors := cors o; async := Some true; uploadsConfig := uploadsConfig o |} in
  let viaCallback := createHandler S I sync event context in
  let viaPromise := createHandler S I asyn event in
  delivery viaCallback = CallbackInvoked (delivered (delivery viaCallback)) /\
  delivery (viaPromise context)
    = ReturnedPromise (delivered (delivery (viaPromise context))) /\
  delivered (delivery viaCallback)
    = delivered (delivery (viaPromise (setCallbackWaits false context))) /\
  calls viaCallback = calls (viaPromise (setCallbackWaits false context)) /\
  (callbackWaitsForEmptyEventLoop context = false ->
   delivered (delivery viaCallback) = delivered (delivery (viaPromise context))) /\
  (Forall (fun c => engine_call c = false) (calls viaCallback) ->
   delivered (delivery viaCallback) = delivered (delivery (viaPromise context))).
Proof.
  cbv zeta.
  assert (Hgen : forall c,
    delivered (delivery (createHandler S I
        {| cors := cors o; async := Some false; uploadsConfig := uploadsConfig o |}
        event c))
    = delivered (delivery (createHandler S I
        {| cors := cors o; async := Some true; uploadsConfig := uploadsConfig o |}
        event (setCallbackWaits false c))) /\
    calls (createHandler S I
        {| cors := cors o; async := Some false; uploadsConfig := uploadsConfig o |}
        event c)
    = calls (createHandler S I
        {| cors := cors o; async := Some true; uploadsConfig := uploadsConfig o |}
        event (setCallbackWaits false c))).
  { intros c. unfold createHandler. simpl.
    destruct (String.eqb (httpMethod event) "OPTIONS"); [split; reflexivity|].
    destruct (toolPage S I _ event) as [[opts res]|]; split; reflexivity. }
  repeat apply conj.
  - unfold createHandler. simpl.
    destruct (String.eqb (httpMethod event) "OPTIONS"); [reflexivity|].
    destruct (toolPage S I _ event) as [[opts res]|]; reflexivity.
  - unfold createHandler. simpl.
    destruct (String.eqb (httpMethod event) "OPTIONS"); [reflexivity|].
    destruct (toolPage S I _ event) as [[opts res]|]; reflexivity.
  - apply Hgen.
  - apply Hgen.
  - intros Hf. rewrite (proj1 (Hgen context)).
    now rewrite (setCallbackWaits_same context Hf).
  - unfold createHandler. simpl.
    destruct (String.eqb (httpMethod event) "OPTIONS"); [reflexivity|].
    destruct (toolPage S I _ event) as [[opts res]|]; [reflexivity|].
    simpl. intros Hf. exfalso.
    match type of Hf with
    | Forall _ (trace (resultPromise ?S ?I ?o ?ev ?eh ?co ?ctx)) =>
        destruct (resultPromise_awaits_start S I o ev eh co ctx) as [t Ht]
    end.
    rewrite Ht in Hf. inversion Hf. discriminate.
Qed.

(** ** The primary path *)

Lemma extractQuery_early I (ev : BridgeEvent) ct r :
  extractQuery I ev ct = inl r -> r = jsonParseFailed.
Proof.
  unfold extractQuery.
  destruct (_ && _); [|discriminate].
  destruct (isJsonContentType ct); [|discriminate].
  destruct (JSON_parse_body I (body ev)); congruence.
Qed.

(** The three ways a run of the bridge can go. *)
Lemma graphqlHandler_inv I (options : Options) (ev : BridgeEvent) context :
  graphqlHandler I options ev context = ([], Resolved postBodyMissing) \/
  graphqlHandler I options ev context = ([], Resolved jsonParseFailed) \/
  exists rq,
    graphqlHandler I options ev context
    = ([CallRunHttpQuery ev context rq],
       bridgeResult (runHttpQuery I ev context rq)).
Proof.
  rewrite graphqlHandler_run.
  destruct (isPost ev && negb (truthy_body I (body ev))); [now left|].
  cbv zeta.
  destruct (extractQuery I ev _) as [early|query] eqn:E.
  - right. left. now rewrite (extractQuery_early _ _ _ _ E).
  - right. right. now eexists.
Qed.

(** The two ways the upload step can go. *)
Lemma uploadStep_inv S I o event (eh : Headers.t) :
  uploadStep S I o event eh = ([], Resolved (asBridgeEvent event)) \/
  exists process b ct,
    processFileUploads I = Some process /\
    body event = Some b /\
    Headers.get "content-type" eh = Some ct /\
    isMultipart (Some ct) = true /\
    uploadStep S I o event eh =
    match process (uploadRequest event ct b) (uploadsConfigOrEmpty o) with
    | Resolved p =>
        ([CallProcessFileUploads (uploadRequest event ct b) (uploadsConfigOrEmpty o)],
         Resolved (withBody event (uploadHeaders (uploadRequest event ct b))
                     (Uploaded p)))
    | Rejected e =>
        ([CallProcessFileUploads (uploadRequest event ct b) (uploadsConfigOrEmpty o);
          CallFormatApolloErrors [e]],
         Rejected (ErrorArray (formatApolloErrors I [e] (formatOptions S))))
    end.
Proof.
  rewrite uploadStep_run.
  destruct (processFileUploads I) as [process|]; [|now left].
  destruct (body event) as [b|]; [|now left].
  destruct (Headers.get "content-type" eh) as [ct|]; [|now left].
  destruct (isMultipart (Some ct)) eqn:E; [|now left].
  right. exists process, b, ct. repeat split. exact E.
Qed.

(** Case analysis of one run of the handler, with the goal stated on
    [createHandler S I o event context]. *)
Ltac handler_cases S I o event :=
  unfold createHandler; cbv zeta;
  destruct (String.eqb (httpMethod event) "OPTIONS") eqn:Hoptions;
  [ cbn [delivery calls contextAfter]; rewrite ?delivered_deliver
  | destruct (toolPage S I (requestCorsHeadersObject (cors o)
                (Headers.of_object (headers event))) event)
      as [[opts res]|] eqn:Htool;
    cbn [delivery calls contextAfter]; rewrite ?delivered_deliver;
    [ | unfold settled, trace; rewrite resultPromise_run;
        destruct (willStart S) as [[]|e0] eqn:Hstart;
        [ destruct (uploadStep_inv S I o event (Headers.of_object (headers event)))
            as [Hu|(process & b & ct & Hproc & Hbody & Hct & Hmp & Hu)];
          [ | destruct (process (uploadRequest event ct b) (uploadsConfigOrEmpty o))
                as [p|e1] eqn:Hup ];
          rewrite Hu; cbv zeta;
          [ | | cbn [fst snd] ];
          try (match goal with
               | |- context [createGraphQLServerOptions S ?ev ?c] =>
                   destruct (createGraphQLServerOptions S ev c)
                     as [options|e2] eqn:Hopt;
                   [ destruct (graphqlHandler_inv I options ev c)
                       as [Hg|[Hg|[rq0 Hg]]]; rewrite Hg | ]
               end; cbn [fst snd app trace settled Outcome_map])
        | cbn [fst snd] ] ] ].

(** The engine is run on the event the upload step resolved to, under the
    context the handler left, and the delivery is the bridge's result with
    the CORS headers merged in. *)
Lemma run_call_inv S I o event context ev ctx rq :
  let inv := createHandler S I o event context in
  let corsObject :=
    requestCorsHeadersObject (cors o) (Headers.of_object (headers event)) in
  In (CallRunHttpQuery ev ctx rq) (calls inv) ->
  settled (uploadStep S I o event (Headers.of_object (headers event)))
    = Resolved ev /\
  ctx = (if truthy_bool (async o) then context
         else setCallbackWaits false context) /\
  delivered (delivery inv)
    = Outcome_map (mergeCors corsObject)
        (bridgeResult (runHttpQuery I ev ctx rq)).
Proof.
  cbv zeta. handler_cases S I o event;
    simpl; intros Hin; intuition (try discriminate); simplify_eq.
  all: repeat split; destruct (bridgeResult _); reflexivity.
Qed.

(** The engine's options are built for the event the upload step resolved
    to. *)
Lemma options_call_inv S I o event context ev ctx :
  In (CallCreateGraphQLServerOptions ev ctx)
     (calls (createHandler S I o event context)) ->
  settled (uploadStep S I o event (Headers.of_object (headers event)))
    = Resolved ev.
Proof.
  handler_cases S I o event;
    simpl; intros Hin; intuition (try discriminate); simplify_eq; reflexivity.
Qed.

(** The upload processor is called at most once, on the request built from
    the event; its failure ends the run after the error formatter. *)
Lemma upload_call_inv S I o event context rq cfg :
  let inv := createHandler S I o event context in
  In (CallProcessFileUploads rq cfg) (calls inv) ->
  exists process b ct,
    processFileUploads I = Some process /\
    body event = Some b /\
    Headers.get "content-type" (Headers.of_object (headers event)) = Some ct /\
    rq = uploadRequest event ct b /\
    cfg = uploadsConfigOrEmpty o /\
    forall e, process rq cfg = Rejected e ->
      delivered (delivery inv)
        = Rejected (ErrorArray (formatApolloErrors I [e] (formatOptions S))) /\
      calls inv = [AwaitWillStart; CallProcessFileUploads rq cfg;
                   CallFormatApolloErrors [e]].
Proof.
  cbv zeta. handler_cases S I o event;
    simpl; intros Hin; intuition (try discriminate); simplify_eq.
  all: exists process, b, ct; repeat split; try assumption; congruence.
Qed.

(** C4 (amended). After a successful execution the delivered result has
    status 200 and the engine's body, and its headers are the engine's
    response headers with the request's CORS headers written over them:
    every CORS header is there with its CORS value, every engine header
    under a name that is no CORS header's is there with the engine's
    value, and under a name both define it is the CORS value that is
    delivered. *)
Theorem execution_headers_merge S I o event context ev ctx rq resp :
  let inv := createHandler S I o event context in
  let corsObject :=
    requestCorsHeadersObject (cors o) (Headers.of_object (headers event)) in
  In (CallRunHttpQuery ev ctx rq) (calls inv) ->
  runHttpQuery I ev ctx rq = Resolved resp ->
  exists h,
    delivered (delivery inv)
      = Resolved {| resultBody := graphqlResponse resp; statusCode := 200;
                    resultHeaders := Some h |} /\
    (forall k v, corsObject !! k = Some v -> h !! k = Some v) /\
    (forall k, corsObject !! k = None ->
       h !! k = spread_opt (responseInitHeaders resp) !! k) /\
    (forall k v w, corsObject !! k = Some v ->
       spread_opt (responseInitHeaders resp) !! k = Some w -> h !! k = Some v).
Proof.
  cbv zeta. intros Hin Hrun.
  destruct (run_call_inv S I o event context ev ctx rq Hin) as (_ & _ & Hd).
  rewrite Hd, Hrun. simpl.
  eexists. split; [reflexivity|].
  repeat split.
  - intros k v Hk. now apply spread_keeps_right.
  - intros k Hk. now rewrite spread_lookup, Hk.
  - intros k v w Hk _. now apply spread_keeps_right.
Qed.

Lemma startsWith_multipart ct :
  Str.startsWith "multipart/form-data" ct = true -> isMultipart (Some ct) = true.
Proof.
  intros H. unfold isMultipart. rewrite H.
  destruct ct; [discriminate | reflexivity].
Qed.

(** C7. On the primary path, with an upload processor at hand, a body that
    is not null under a content type starting with [multipart/form-data]
    is replaced by what the processor resolves to, the processor having
    been given the body as one chunk, marked base64 when the event's flag
    is set; under any other content type, or none, the body is the
    original one, as it is for a null body and where the runtime offers
    no upload processor.  The event so prepared is the one the engine's
    options are built for and the one the bridge runs the engine on. *)
Theorem upload_replaces_body S I o event :
  let eh := Headers.of_object (headers event) in
  let step := uploadStep S I o event eh in
  let cfg := uploadsConfigOrEmpty o in
  (forall process b ct p,
     processFileUploads I = Some process ->
     body event = Some b ->
     Headers.get "content-type" eh = Some ct ->
     Str.startsWith "multipart/form-data" ct = true ->
     process (uploadRequest event ct b) cfg = Resolved p ->
     exists ev',
       step = ([CallProcessFileUploads (uploadRequest event ct b) cfg],
               Resolved ev') /\
       body ev' = Uploaded p /\
       chunk (uploadRequest event ct b) = b /\
       chunkEncoding (uploadRequest event ct b)
         = if isBase64Encoded event then base64 else ascii) /\
  (isMultipart (Headers.get "content-type" eh) = false ->
     exists ev',
       step = ([], Resolved ev') /\ body ev' = Original (body event)) /\
  (processFileUploads I = None \/ body event = None ->
     exists ev',
       step = ([], Resolved ev') /\ body ev' = Original (body event)) /\
  (forall context ev ctx,
     In (CallCreateGraphQLServerOptions ev ctx)
        (calls (createHandler S I o event context)) ->
     settled step = Resolved ev) /\
  (forall context ev ctx rq,
     In (CallRunHttpQuery ev ctx rq)
        (calls (createHandler S I o event context)) ->
     settled step = Resolved ev).
Proof.
  cbv zeta. repeat apply conj.
  - intros process b ct p Hproc Hb Hct Hsw Hp.
    rewrite uploadStep_run, Hproc, Hb, Hct, (startsWith_multipart ct Hsw).
    cbv zeta. rewrite Hp. eexists. repeat split.
  - intros Hm. rewrite uploadStep_run.
    exists (asBridgeEvent event). split; [|reflexivity].
    destruct (processFileUploads I); [|reflexivity].
    destruct (body event); [|reflexivity].
    destruct (Headers.get "content-type" _); [|reflexivity].
    now rewrite Hm.
  - intros Hno. rewrite uploadStep_run.
    exists (asBridgeEvent event). split; [|reflexivity].
    destruct Hno as [-> | ->]; [reflexivity|].
    now destruct (processFileUploads I).
  - intros context ev ctx. apply options_call_inv.
  - intros context ev ctx rq Hin.
    now destruct (run_call_inv S I o event context ev ctx rq Hin).
Qed.

(** C8. A structured query error becomes a result carrying its status,
    message and headers at the bridge, which the handler delivers with the
    CORS headers merged in.  An error of the upload processor goes through
    the engine's error formatter and what the formatter returns is thrown:
    the run ends there, with no result.  Any other error of the engine
    (or of its startup or its options) is delivered as it is.  The results
    delivered are the preflight result, the tool page, the two plain-text
    request errors, a successful execution and a mapped structured error,
    and no other. *)
Theorem error_recovery S I o event context :
  let inv := createHandler S I o event context in
  let corsObject :=
    requestCorsHeadersObject (cors o) (Headers.of_object (headers event)) in
  (forall (options : Options) (ev : BridgeEvent) ctx rq s m h,
     In (CallRunHttpQuery ev ctx rq) (trace (graphqlHandler I options ev ctx)) ->
     runHttpQuery I ev ctx rq = Rejected (HttpQueryError s m h) ->
     settled (graphqlHandler I options ev ctx)
       = Resolved {| resultBody := m; statusCode := s; resultHeaders := h |}) /\
  (forall ev ctx rq s m h,
     In (CallRunHttpQuery ev ctx rq) (calls inv) ->
     runHttpQuery I ev ctx rq = Rejected (HttpQueryError s m h) ->
     delivered (delivery inv)
       = Resolved {| resultBody := m; statusCode := s;
                     resultHeaders := Some (spread (spread_opt h) corsObject) |}) /\
  (forall process rq cfg e,
     processFileUploads I = Some process ->
     In (CallProcessFileUploads rq cfg) (calls inv) ->
     process rq cfg = Rejected e ->
     delivered (delivery inv)
       = Rejected (ErrorArray (formatApolloErrors I [e] (formatOptions S))) /\
     calls inv = [AwaitWillStart; CallProcessFileUploads rq cfg;
                  CallFormatApolloErrors [e]]) /\
  (forall ev ctx rq e,
     In (CallRunHttpQuery ev ctx rq) (calls inv) ->
     runHttpQuery I ev ctx rq = Rejected e ->
     (forall s m h, e <> HttpQueryError s m h) ->
     delivered (delivery inv) = Rejected e) /\
  (forall e, In AwaitWillStart (calls inv) -> willStart S = Rejected e ->
     delivered (delivery inv) = Rejected e) /\
  (forall ev ctx e,
     In (CallCreateGraphQLServerOptions ev ctx) (calls inv) ->
     createGraphQLServerOptions S ev ctx = Rejected e ->
     delivered (delivery inv) = Rejected e) /\
  (forall r, delivered (delivery inv) = Resolved r ->
     calls inv = [] \/
     (exists opts, calls inv = [CallRenderPlaygroundPage opts]) \/
     r = mergeCors corsObject postBodyMissing \/
     r = mergeCors corsObject jsonParseFailed \/
     exists ev ctx rq,
       In (CallRunHttpQuery ev ctx rq) (calls inv) /\
       ((exists resp, runHttpQuery I ev ctx rq = Resolved resp /\
                      r = mergeCors corsObject (okResult resp)) \/
        (exists s m h, runHttpQuery I ev ctx rq = Rejected (HttpQueryError s m h) /\
                       r = mergeCors corsObject
                             {| resultBody := m; statusCode := s;
                                resultHeaders := h |}))).
Proof.
  cbv zeta. repeat apply conj.
  - intros options ev ctx rq s m h Hin Hrun.
    destruct (graphqlHandler_inv I options ev ctx) as [Hg|[Hg|[rq0 Hg]]];
      rewrite Hg in *; simpl in Hin; intuition (try discriminate).
    simplify_eq. simpl. now rewrite Hrun.
  - intros ev ctx rq s m h Hin Hrun.
    destruct (run_call_inv S I o event context ev ctx rq Hin) as (_ & _ & Hd).
    rewrite Hd, Hrun. reflexivity.
  - intros process rq cfg e Hproc Hin He.
    destruct (upload_call_inv S I o event context rq cfg Hin)
      as (process' & b & ct & Hproc' & _ & _ & _ & _ & Hfail).
    rewrite Hproc in Hproc'. injection Hproc' as <-. now apply Hfail.
  - intros ev ctx rq e Hin Hrun Hne.
    destruct (run_call_inv S I o event context ev ctx rq Hin) as (_ & _ & Hd).
    rewrite Hd, Hrun. simpl.
    destruct e as [s m h|n m|es]; [now destruct (Hne s m h)| |]; reflexivity.
  - intros e. handler_cases S I o event; simpl; intros Hin He;
      intuition (try discriminate); congruence.
  - intros ev ctx e. handler_cases S I o event; simpl; intros Hin He;
      intuition (try discriminate); simplify_eq; simpl in *; congruence.
  - intros r. handler_cases S I o event; simpl; intros Hr;
      try discriminate; simplify_eq; eauto.
    all: right; right; right; right;
      match goal with
      | |- context [CallRunHttpQuery ?e ?c ?q] =>
          exists e, c, q; (split; [simpl; tauto|]);
          destruct (runHttpQuery I e c q) as [resp|[s m h|n m|es]] eqn:Hrun
      end;
      simpl in Hr; simplify_eq; eauto 10.
Qed.

(** * Further properties of the code *)

(** ** The CORS headers *)

Lemma set_joined_lookup_eq name v (h : Headers.t) :
  set_joined name v h !! Str.toLowerCase name =
  match headerValue v with
  | Some x => Some x
  | None => h !! Str.toLowerCase name
  end.
Proof.
  unfold set_joined, headerValue.
  destruct v as [[s|xs]|]; [destruct (Str.truthy s)| |];
    auto using Headers_set_lookup_eq.
Qed.

Lemma corsHeaders_allow_headers c :
  corsHeaders (Some c) !! "access-control-allow-headers"
    = headerValue (allowedHeaders c).
Proof.
  unfold corsHeaders.
  pose proof (set_joined_lookup_eq "access-control-allow-headers") as Eh.
  vm_compute (Str.toLowerCase _) in Eh.
  destruct (maxAge c); destruct (truthy_bool (credentials c));
    rewrite ?Headers_set_lookup_ne by (lower_names; discriminate);
    rewrite set_joined_lookup_ne by (lower_names; discriminate);
    rewrite Eh, set_joined_lookup_ne by (lower_names; discriminate);
    destruct (headerValue (allowedHeaders c)); reflexivity.
Qed.

(** Each field of the policy governs the one base header named after it,
    and the base headers hold no other name: a list is joined with commas
    (an empty list gives an empty value), an empty string and a missing
    field set nothing, the credentials header is [true] or absent, and the
    max-age header is the number as [toString] prints it, whatever the
    number. *)
Theorem base_cors_header_values c :
  let h := corsHeaders (Some c) in
  h !! "access-control-allow-methods" = headerValue (methods c) /\
  h !! "access-control-allow-headers" = headerValue (allowedHeaders c) /\
  h !! "access-control-expose-headers" = headerValue (exposedHeaders c) /\
  h !! "access-control-allow-credentials"
    = (if truthy_bool (credentials c) then Some "true" else None) /\
  h !! "access-control-max-age" = Num.toString <$> maxAge c /\
  (forall k, ~ In k baseNames -> h !! k = None).
Proof.
  cbv zeta. unfold corsHeaders.
  pose proof (set_joined_lookup_eq "access-control-allow-methods") as Em.
  pose proof (set_joined_lookup_eq "access-control-expose-headers") as Ee.
  pose proof (Headers_set_lookup_eq "access-control-allow-credentials") as Ec.
  pose proof (Headers_set_lookup_eq "access-control-max-age") as Ea.
  vm_compute (Str.toLowerCase _) in Em, Ee, Ec, Ea.
  repeat apply conj.
  - destruct (maxAge c); destruct (truthy_bool (credentials c));
      rewrite ?Headers_set_lookup_ne by (lower_names; discriminate);
      rewrite !set_joined_lookup_ne by (lower_names; discriminate);
      rewrite Em; destruct (headerValue (methods c)); reflexivity.
  - apply corsHeaders_allow_headers.
  - destruct (maxAge c); destruct (truthy_bool (credentials c));
      rewrite ?Headers_set_lookup_ne by (lower_names; discriminate);
      rewrite Ee, !set_joined_lookup_ne by (lower_names; discriminate);
      destruct (headerValue (exposedHeaders c)); reflexivity.
  - destruct (maxAge c); destruct (truthy_bool (credentials c));
      rewrite ?Headers_set_lookup_ne by (lower_names; discriminate);
      rewrite ?Ec; try reflexivity;
      rewrite !set_joined_lookup_ne by (lower_names; discriminate);
      reflexivity.
  - destruct (maxAge c); simpl; [apply Ea|].
    destruct (truthy_bool (credentials c));
      rewrite ?Headers_set_lookup_ne by (lower_names; discriminate);
      rewrite !set_joined_lookup_ne by (lower_names; discriminate);
      reflexivity.
  - intros k Hk. now apply (corsHeaders_lookup_outside (Some c)).
Qed.

(** The [Access-Control-Allow-Headers] header of a request: the policy's
    own list when it has one (even an empty list), whatever the request
    asks for; otherwise, under a policy with a truthy origin, the
    request's non-empty [Access-Control-Request-Headers]; and nothing when
    the request carries none or the policy's origin is unset, [false] or
    empty. *)
Theorem request_headers_reflection c (eh : Headers.t) :
  let allowHeaders :=
    requestCorsHeaders (Some c) eh !! "access-control-allow-headers" in
  let asked := Headers.get "access-control-request-headers" eh in
  (truthy_sl (allowedHeaders c) = true ->
     allowHeaders = headerValue (allowedHeaders c) /\
     exists v, allowHeaders = Some v) /\
  (truthy_sl (allowedHeaders c) = false -> truthy_origin (origin c) = true ->
     forall r, asked = Some r -> r <> "" -> allowHeaders = Some r) /\
  (truthy_sl (allowedHeaders c) = false -> truthy_opt asked = false ->
     allowHeaders = None) /\
  (truthy_sl (allowedHeaders c) = false -> truthy_origin (origin c) = false ->
     allowHeaders = None).
Proof.
  cbv zeta.
  pose proof (corsHeaders_allow_headers c) as Hbase.
  assert (Hin : forall h : Headers.t,
    h !! "access-control-allow-headers" = headerValue (allowedHeaders c) ->
    forall og (b : bool),
    (if b then Headers.set "access-control-allow-origin" og h else h)
      !! "access-control-allow-headers" = headerValue (allowedHeaders c)).
  { intros h Hh og []; [|exact Hh].
    rewrite Headers_set_lookup_ne by (lower_names; discriminate). exact Hh. }
  assert (Hor :
    match origin c with
    | Some (OriginString s) =>
        Headers.set "access-control-allow-origin" s (corsHeaders (Some c))
    | Some (OriginBool _) =>
        match Headers.get "origin" eh with
        | Some og => if Str.truthy og
                     then Headers.set "access-control-allow-origin" og
                            (corsHeaders (Some c))
                     else corsHeaders (Some c)
        | None => corsHeaders (Some c)
        end
    | Some (OriginList xs) =>
        match Headers.get "origin" eh with
        | Some og => if Str.truthy og && Str.mem og xs
                     then Headers.set "access-control-allow-origin" og
                            (corsHeaders (Some c))
                     else corsHeaders (Some c)
        | None => corsHeaders (Some c)
        end
    | None => corsHeaders (Some c)
    end !! "access-control-allow-headers" = headerValue (allowedHeaders c)).
  { destruct (origin c) as [[b|s|xs]|];
      [ | apply (Hin _ Hbase s true) | | exact Hbase];
      (destruct (Headers.get "origin" eh) as [og|];
       [apply (Hin _ Hbase)|exact Hbase]). }
  assert (Hval : truthy_sl (allowedHeaders c) = false ->
                 headerValue (allowedHeaders c) = None).
  { destruct (allowedHeaders c) as [[s|xs]|]; simpl;
      [now intros -> | discriminate | reflexivity]. }
  unfold requestCorsHeaders, Headers.copy.
  repeat apply conj.
  - intros Ha.
    match goal with
    | |- ?x = _ /\ _ => assert (H1 : x = headerValue (allowedHeaders c))
    end.
    { destruct (truthy_origin (origin c)); [|exact Hbase]. cbv zeta.
      rewrite Ha. simpl.
      destruct (Headers.get "access-control-request-headers" eh); exact Hor. }
    split; [exact H1|]. rewrite H1.
    destruct (allowedHeaders c) as [[s|xs]|]; simpl in *;
      [rewrite Ha; eauto | eauto | discriminate].
  - intros Ha Ho r Hr Hne. rewrite Ho. cbv zeta. rewrite Hr, Ha.
    apply Str_truthy_true in Hne. rewrite Hne. simpl.
    apply (Headers_set_lookup_eq "access-control-allow-headers").
  - intros Ha Hr.
    destruct (truthy_origin (origin c)); [|now rewrite Hbase, Hval].
    cbv zeta.
    destruct (Headers.get "access-control-request-headers" eh) as [r|];
      simpl in Hr; [rewrite Hr, andb_false_r|]; now rewrite Hor, Hval.
  - intros Ha Ho. rewrite Ho. now rewrite Hbase, Hval.
Qed.

(** The CORS object of a request holds none but the six lower-case CORS
    names, each of which is its own lower-casing; so it never touches a
    header such as [Content-Type] that a result sets under another
    name. *)
Theorem cors_object_names c (eh : Headers.t) k v :
  requestCorsHeadersObject c eh !! k = Some v ->
  In k requestNames /\ Str.toLowerCase k = k /\ k <> "Content-Type".
Proof.
  intros Hk.
  assert (Hin : In k requestNames).
  { destruct (in_dec string_dec k requestNames) as [Hin|Hout]; [exact Hin|].
    unfold requestCorsHeadersObject, Headers.to_object in Hk.
    rewrite (requestCorsHeaders_lookup_outside c eh k Hout) in Hk.
    discriminate. }
  split; [exact Hin|].
  simpl in Hin.
  repeat (destruct Hin as [<-|Hin]; [split; [reflexivity|discriminate]|]).
  destruct Hin.
Qed.

(** Without a [cors] option the handler adds no header: the preflight
    result has none, the tool page has its content type only, and on the
    primary path the headers delivered are those of the bridge's
    result. *)
Theorem no_cors_policy_adds_no_header S I o event context :
  cors o = None ->
  let inv := createHandler S I o event context in
  (httpMethod event = "OPTIONS" ->
     delivered (delivery inv)
       = Resolved {| resultBody := ""; statusCode := 204;
                     resultHeaders := Some ∅ |}) /\
  (forall opts r,
     In (CallRenderPlaygroundPage opts) (calls inv) ->
     delivered (delivery inv) = Resolved r ->
     resultHeaders r = Some {["Content-Type" := "text/html"]}) /\
  (forall ev ctx rq,
     In (CallRunHttpQuery ev ctx rq) (calls inv) ->
     delivered (delivery inv)
       = Outcome_map
           (fun r => {| resultBody := resultBody r; statusCode := statusCode r;
                        resultHeaders := Some (spread_opt (resultHeaders r)) |})
           (bridgeResult (runHttpQuery I ev ctx rq))).
Proof.
  intros Hc. cbv zeta.
  assert (He : requestCorsHeadersObject (cors o)
                 (Headers.of_object (headers event)) = ∅)
    by now rewrite Hc.
  repeat apply conj.
  - intros Hm.
    destruct (preflight_headers_only S I o event context Hm) as [-> _].
    now rewrite He.
  - intros page r. handler_cases S I o event; simpl; intros Hin Hr;
      intuition (try discriminate); simplify_eq.
    unfold toolPage in Htool.
    destruct (playgroundOptions S); [|discriminate].
    destruct (_ && _); [|discriminate].
    simplify_eq. simpl. rewrite He. now rewrite spread_empty_r.
  - intros ev ctx rq Hin.
    destruct (run_call_inv S I o event context ev ctx rq Hin) as (_ & _ & ->).
    rewrite He.
    destruct (bridgeResult _) as [r|e]; [|reflexivity]. simpl.
    unfold mergeCors. now rewrite spread_empty_r.
Qed.

(** ** The invocation context *)

(** The handler writes the context's wait flag in callback mode only, and
    there only on the preflight path and the primary path: in promise mode
    and on the tool page the context is left as it came.  Nothing else of
    the context is ever written. *)
Theorem context_wait_flag S I o event context :
  let inv := createHandler S I o event context in
  (truthy_bool (async o) = true -> contextAfter inv = context) /\
  (forall opts, In (CallRenderPlaygroundPage opts) (calls inv) ->
     contextAfter inv = context) /\
  (truthy_bool (async o) = false ->
   (forall opts, ~ In (CallRenderPlaygroundPage opts) (calls inv)) ->
   contextAfter inv = setCallbackWaits false context) /\
  awsRequestId (contextAfter inv) = awsRequestId context.
Proof.
  cbv zeta. repeat apply conj.
  - intros Ha. unfold createHandler. rewrite Ha. cbv zeta.
    destruct (String.eqb (httpMethod event) "OPTIONS"); [reflexivity|].
    destruct (toolPage S I _ event) as [[opts res]|]; reflexivity.
  - intros page. handler_cases S I o event; simpl; intros Hin;
      intuition (try discriminate).
  - intros Ha. unfold createHandler. rewrite Ha. cbv zeta.
    destruct (String.eqb (httpMethod event) "OPTIONS"); [reflexivity|].
    destruct (toolPage S I _ event) as [[opts res]|]; [|reflexivity].
    simpl. intros Hno. destruct (Hno opts). now left.
  - unfold createHandler. cbv zeta.
    destruct (String.eqb (httpMethod event) "OPTIONS");
      [now destruct (truthy_bool (async o))|].
    destruct (toolPage S I _ event) as [[opts res]|]; [reflexivity|].
    now destruct (truthy_bool (async o)).
Qed.

(** ** The tool page *)

(** The renderer is called only on a GET request, with a tool
    configuration present and an accept header containing [text/html];
    it is then the only collaborator called, and it is given the
    configuration's properties with an endpoint. *)
Theorem tool_page_only_when_asked S I o event context page :
  In (CallRenderPlaygroundPage page)
     (calls (createHandler S I o event context)) ->
  exists pg,
    playgroundOptions S = Some pg /\
    httpMethod event = "GET" /\
    acceptsHtml event = true /\
    page = playgroundRenderPageOptions pg event /\
    calls (createHandler S I o event context) = [CallRenderPlaygroundPage page].
Proof.
  handler_cases S I o event; simpl; intros Hin;
    intuition (try discriminate); simplify_eq.
  unfold toolPage in Htool.
  destruct (playgroundOptions S) as [pg|]; [|discriminate].
  destruct (String.eqb (httpMethod event) "GET") eqn:Hget; [|discriminate].
  destruct (acceptsHtml event) eqn:Hacc; [|discriminate].
  simpl in Htool. simplify_eq.
  exists pg. apply String.eqb_eq in Hget. auto.
Qed.

(** The accept header is read under the property names [Accept] and
    [accept] and no other: a GET request that has neither, however else
    it spells the name, is not answered with the tool page but goes down
    the primary path; and a non-empty [Accept] without [text/html] decides
    the matter, whatever [accept] holds. *)
Theorem accept_header_spellings S I o event context :
  httpMethod event = "GET" ->
  (Obj.get "Accept" (headers event) = None /\
   Obj.get "accept" (headers event) = None) \/
  (exists a, Obj.get "Accept" (headers event) = Some a /\ a <> "" /\
             Str.includes "text/html" a = false) ->
  exists rest, calls (createHandler S I o event context) = AwaitWillStart :: rest.
Proof.
  intros Hm Hcase.
  assert (Hacc : acceptsHtml event = false).
  { unfold acceptsHtml, acceptHeader, or_else.
    destruct Hcase as [[-> ->]|(a & -> & Hne & Hinc)]; [reflexivity|].
    apply Str_truthy_true in Hne. rewrite Hne. simpl. now rewrite Hne, Hinc. }
  unfold createHandler. rewrite Hm. simpl.
  unfold toolPage. rewrite Hm, Hacc. simpl.
  destruct (playgroundOptions S); simpl; apply resultPromise_awaits_start.
Qed.

Lemma toolEndpoint_nonempty event : toolEndpoint event <> "".
Proof.
  unfold toolEndpoint, or_else.
  destruct (path event) as [p|]; [destruct (Str.truthy p) eqn:Hp|].
  - simpl. rewrite Hp. now apply Str_truthy_true.
  - destruct (match requestContext event with
              | Some rc => requestPath rc
              | None => None
              end) as [q|]; [destruct (Str.truthy q) eqn:Hq|];
      simpl; rewrite ?Hq; try discriminate. now apply Str_truthy_true.
  - destruct (match requestContext event with
              | Some rc => requestPath rc
              | None => None
              end) as [q|]; [destruct (Str.truthy q) eqn:Hq|];
      simpl; rewrite ?Hq; try discriminate. now apply Str_truthy_true.
Qed.

(** What the renderer is given: every property of the tool configuration
    as it is, and always an endpoint, which is never empty when it is the
    handler that supplies it. *)
Theorem renderer_options (pg : gmap string string) event :
  let opts := playgroundRenderPageOptions pg event in
  (forall k v, pg !! k = Some v -> opts !! k = Some v) /\
  (forall k, k <> "endpoint" -> opts !! k = pg !! k) /\
  (exists e, opts !! "endpoint" = Some e) /\
  (pg !! "endpoint" = None ->
     exists e, opts !! "endpoint" = Some e /\ e <> "").
Proof.
  cbv zeta. unfold playgroundRenderPageOptions. repeat apply conj.
  - intros k v Hk. now apply spread_keeps_right.
  - intros k Hk. rewrite spread_lookup.
    destruct (pg !! k); [reflexivity|]. now apply lookup_singleton_ne.
  - rewrite spread_lookup. destruct (pg !! "endpoint"); [eauto|].
    rewrite lookup_singleton_eq. eauto.
  - intros Hno. rewrite spread_lookup, Hno, lookup_singleton_eq.
    eexists. split; [reflexivity|]. apply toolEndpoint_nonempty.
Qed.

(** ** The order of calls on the primary path *)

(** The engine is run at most once and last: after its startup was
    awaited, after the one upload call if there is one, and right after
    its options were built for the very event and context it is run
    on. *)
Theorem engine_run_comes_last S I o event context ev ctx rq :
  In (CallRunHttpQuery ev ctx rq) (calls (createHandler S I o event context)) ->
  exists pre,
    calls (createHandler S I o event context)
      = (AwaitWillStart :: pre
         ++ [CallCreateGraphQLServerOptions ev ctx; CallRunHttpQuery ev ctx rq])%list /\
    (pre = [] \/ exists r cfg, pre = [CallProcessFileUploads r cfg]).
Proof.
  handler_cases S I o event; simpl; intros Hin;
    intuition (try discriminate); simplify_eq.
  - exists []. split; [reflexivity|now left].
  - eexists [_]. split; [reflexivity|]. right. eauto.
Qed.

(** When the engine's startup fails nothing else is attempted: the run
    makes no call besides awaiting the startup (or rendering the tool
    page, which does not wait for it), and on the primary path the
    startup's error is what is delivered. *)
Theorem startup_failure_stops_the_run S I o event context e :
  willStart S = Rejected e ->
  let inv := createHandler S I o event context in
  calls inv = [] \/
  (exists opts, calls inv = [CallRenderPlaygroundPage opts]) \/
  (calls inv = [AwaitWillStart] /\ delivered (delivery inv) = Rejected e).
Proof.
  intros Hs. cbv zeta. revert Hs.
  handler_cases S I o event; simpl; intros Hs; try congruence; eauto.
  right. right. split; congruence.
Qed.

(** Where there is nothing to upload the step hands the event on as it
    is, calling nothing. *)
Lemma uploadStep_passes S I o event (eh : Headers.t) :
  body event = None \/ isMultipart (Headers.get "content-type" eh) = false \/
  processFileUploads I = None ->
  uploadStep S I o event eh = ([], Resolved (asBridgeEvent event)).
Proof.
  intros H. rewrite uploadStep_run.
  destruct (processFileUploads I) as [process|]; [|reflexivity].
  destruct (body event) as [b|]; [|reflexivity].
  destruct (Headers.get "content-type" eh) as [ct|]; [|reflexivity].
  destruct (isMultipart (Some ct)); [|reflexivity].
  destruct H as [H|[H|H]]; discriminate.
Qed.

(** A POST request without a body is answered through the handler with
    status 500, the text [POST body missing.] and the request's CORS
    headers and no other: the startup is awaited and the options built,
    but the engine is not run. *)
Theorem post_without_body_through_handler S I o event context options :
  httpMethod event = "POST" ->
  body event = None ->
  willStart S = Resolved tt ->
  let ctx' := if truthy_bool (async o) then context
              else setCallbackWaits false context in
  createGraphQLServerOptions S (asBridgeEvent event) ctx' = Resolved options ->
  let inv := createHandler S I o event context in
  delivered (delivery inv)
    = Resolved {| resultBody := "POST body missing."; statusCode := 500;
                  resultHeaders :=
                    Some (requestCorsHeadersObject (cors o)
                            (Headers.of_object (headers event))) |} /\
  calls inv = [AwaitWillStart;
               CallCreateGraphQLServerOptions (asBridgeEvent event) ctx'].
Proof.
  intros Hm Hb Hs. cbv zeta. intros Ho.
  unfold createHandler. rewrite Hm. simpl.
  unfold toolPage. rewrite Hm. simpl.
  assert (Ht : match playgroundOptions S with
               | Some _ => None
               | None => None
               end = (None : option (gmap string string * APIGatewayProxyResult)))
    by now destruct (playgroundOptions S).
  rewrite Ht. simpl. rewrite delivered_deliver.
  unfold settled, trace. rewrite resultPromise_run, Hs.
  rewrite (uploadStep_passes S I o event _ (or_introl Hb)).
  cbv zeta. rewrite Ho.
  assert (Hp : isPost (asBridgeEvent event : BridgeEvent) = true)
    by (unfold isPost; simpl; now rewrite Hm).
  assert (Hn : truthy_body I (body (asBridgeEvent event : BridgeEvent)) = false)
    by (simpl; now rewrite Hb).
  rewrite graphqlHandler_run, Hp, Hn. simpl.
  unfold mergeCors. simpl. now rewrite spread_empty_r_any.
Qed.

(** ** The bridge's query payload *)

Lemma graphqlHandler_not_post I (options : Options) (ev : BridgeEvent) context :
  httpMethod ev <> "POST" ->
  graphqlHandler I options ev context
    = (let rq := httpQueryRequest options ev
                   (QueryParams (queryStringParameters ev))
                   (Headers.of_object (headers ev)) in
       ([CallRunHttpQuery ev context rq],
        bridgeResult (runHttpQuery I ev context rq))).
Proof.
  intros Hm. cbv zeta.
  assert (Hp : isPost ev = false) by now apply String.eqb_neq.
  rewrite graphqlHandler_run, Hp. simpl.
  unfold extractQuery. rewrite Hp. reflexivity.
Qed.

(** For every method other than POST the bridge hands the engine the
    query-string parameters as they are, null included: the body, its
    content type and the JSON parser play no part, and the engine is run
    exactly once, on the event's path, method and headers. *)
Theorem bridge_query_string I (options : Options) (ev : BridgeEvent) context :
  httpMethod ev <> "POST" ->
  let rq := httpQueryRequest options ev
              (QueryParams (queryStringParameters ev))
              (Headers.of_object (headers ev)) in
  graphqlHandler I options ev context
    = ([CallRunHttpQuery ev context rq],
       bridgeResult (runHttpQuery I ev context rq)) /\
  rqUrl rq = path ev /\ rqMethod rq = httpMethod ev.
Proof.
  intros Hm. cbv zeta.
  rewrite (graphqlHandler_not_post I options ev context Hm). auto.
Qed.

(** A POST body under a JSON content type that parses is handed to the
    engine parsed, in the one run of the engine. *)
Theorem bridge_parsed_json I (options : Options) (ev : BridgeEvent) context s j :
  httpMethod ev = "POST" ->
  body ev = Original (Some s) ->
  s <> "" ->
  isJsonContentType
    (Headers.get "content-type" (Headers.of_object (headers ev))) = true ->
  JSON_parse I s = Resolved j ->
  let rq := httpQueryRequest options ev (QueryJson j)
              (Headers.of_object (headers ev)) in
  graphqlHandler I options ev context
    = ([CallRunHttpQuery ev context rq],
       bridgeResult (runHttpQuery I ev context rq)).
Proof.
  intros Hm Hb Hne Hct Hj. cbv zeta.
  assert (Hp : isPost ev = true) by (unfold isPost; now rewrite Hm).
  assert (Ht : truthy_body I (body ev) = true).
  { rewrite Hb. simpl. now apply Str_truthy_true. }
  rewrite graphqlHandler_run, Hp, Ht. simpl.
  unfold extractQuery. rewrite Hp, Ht, Hct. simpl.
  rewrite Hb. simpl. now rewrite Hj.
Qed.

(** ** What the upload step changes of the event *)

Lemma Obj_get_set_eq k v (obj : PropertyList) :
  Obj.get k (Obj.set k v obj) = Some v.
Proof.
  induction obj as [|[k' v'] rest IH]; simpl.
  - now rewrite String.eqb_refl.
  - destruct (String.eqb k' k) eqn:E; simpl; rewrite E; auto.
Qed.

Lemma Obj_get_set_ne k k' v (obj : PropertyList) :
  k <> k' -> Obj.get k' (Obj.set k v obj) = Obj.get k' obj.
Proof.
  intros Hne. induction obj as [|[k0 v0] rest IH]; simpl.
  - apply String.eqb_neq in Hne. now rewrite Hne.
  - destruct (String.eqb k0 k) eqn:E; simpl.
    + apply String.eqb_eq in E. subst k0.
      apply String.eqb_neq in Hne. now rewrite Hne.
    + now rewrite IH.
Qed.

(** The upload step changes nothing of the event but its body and, when
    it did call the processor, the [content-type] property of the header
    object, which then holds the content type the handler read; every
    other header property and every other field is the host's. *)
Theorem upload_step_frame S I o event ev' :
  let eh := Headers.of_object (headers event) in
  settled (uploadStep S I o event eh) = Resolved ev' ->
  httpMethod ev' = httpMethod event /\
  path ev' = path event /\
  queryStringParameters ev' = queryStringParameters event /\
  isBase64Encoded ev' = isBase64Encoded event /\
  requestContext ev' = requestContext event /\
  (forall k, k <> "content-type" ->
     Obj.get k (headers ev') = Obj.get k (headers event)) /\
  (trace (uploadStep S I o event eh) = [] ->
     headers ev' = headers event /\ body ev' = Original (body event)) /\
  (trace (uploadStep S I o event eh) <> [] ->
     Obj.get "content-type" (headers ev') = Headers.get "content-type" eh /\
     exists p, body ev' = Uploaded p).
Proof.
  cbv zeta.
  destruct (uploadStep_inv S I o event (Headers.of_object (headers event)))
    as [Hu|(process & b & ct & Hproc & Hbody & Hct & Hmp & Hu)]; rewrite Hu.
  - simpl. intros [= <-]. simpl. repeat split; congruence.
  - destruct (process _ _) as [p|e]; simpl; [|discriminate].
    intros [= <-]. simpl. repeat split; try discriminate.
    + intros k Hk. now apply Obj_get_set_ne.
    + rewrite Hct. apply Obj_get_set_eq.
    + eauto.
Qed.

(** ** The earlier handlers *)

(** The callback handler and the promise handler of [lambdaApollo.ts] do
    the same thing but for two points: the callback handler clears the
    context's wait flag first, on every path, so they agree when the
    promise handler is given the context with the flag clear; and a body
    that fails to parse leaves the callback handler as an exception, the
    callback never being invoked, where the promise handler rejects (or
    maps the error, were it named [HttpQueryError]). *)
Theorem legacy_handlers_correspond I (options : Options) event context :
  let viaCallback := legacy_graphqlLambda I options event context in
  let viaPromise :=
    legacy_graphqlLambdaAsync I options event (setCallbackWaits false context) in
  legacyContextAfter viaCallback = setCallbackWaits false context /\
  legacyCalls viaCallback = fst viaPromise /\
  match legacyEnd viaCallback with
  | Called None (Some r) => snd viaPromise = Resolved r
  | Called (Some e) None =>
      snd viaPromise = Rejected e /\ namedHttpQueryError e = false
  | Threw e =>
      legacyQuery I event = Rejected e /\
      snd viaPromise
        = (if namedHttpQueryError e then Resolved (ofError e) else Rejected e)
  | Called _ _ => False
  end.
Proof.
  cbv zeta. unfold legacy_graphqlLambda, legacy_graphqlLambdaAsync.
  destruct (isPost event && negb (truthy_opt (body event)));
    [simpl; repeat split|].
  destruct (legacyQuery I event) as [q|e] eqn:Hq;
    cbn [legacyEnd legacyCalls legacyContextAfter fst snd];
    [|repeat split].
  change (setCallbackWaits false (setCallbackWaits false context))
    with (setCallbackWaits false context).
  split; [reflexivity|]. split; [reflexivity|].
  destruct (runHttpQuery I _ _ _) as [r|e]; simpl; [reflexivity|].
  destruct (namedHttpQueryError e) eqn:Hn; simpl; rewrite ?Hn; auto.
Qed.

(** On a request that is not a POST the present bridge and the earlier
    promise handler run the engine on the same request and agree on a
    successful answer and on a structured query error.  They part on an
    error that is merely named [HttpQueryError]: the present bridge tests
    the error's class and throws it again, the earlier handler compares
    the name and answers with the error's message, status code and
    headers, whichever of them the error has. *)
Theorem bridge_then_and_now I (options : Options) event context :
  httpMethod event <> "POST" ->
  let now := graphqlHandler I options (asBridgeEvent event) context in
  let before := legacy_graphqlLambdaAsync I options event context in
  exists rq,
    trace now = [CallRunHttpQuery (asBridgeEvent event) context rq] /\
    fst before = trace now /\
    match runHttpQuery I (asBridgeEvent event) context rq with
    | Resolved r =>
        settled now = Resolved (okResult r) /\
        snd before = Resolved (loose (okResult r))
    | Rejected (HttpQueryError status message hdrs) =>
        let result := {| resultBody := message; statusCode := status;
                         resultHeaders := hdrs |} in
        settled now = Resolved result /\ snd before = Resolved (loose result)
    | Rejected (OtherError name message status hdrs) =>
        settled now = Rejected (OtherError name message status hdrs) /\
        snd before =
          (if String.eqb name "HttpQueryError"
           then Resolved {| looseBody := Some message;
                            looseStatusCode := status;
                            looseHeaders := hdrs |}
           else Rejected (OtherError name message status hdrs))
    | Rejected e => settled now = Rejected e /\ snd before = Rejected e
    end.
Proof.
  intros Hm. cbv zeta.
  pose proof (graphqlHandler_not_post I options (asBridgeEvent event) context Hm)
    as Hnow.
  cbv zeta in Hnow. rewrite Hnow. eexists. split; [reflexivity|].
  assert (Hp : isPost event = false) by now apply String.eqb_neq.
  unfold legacy_graphqlLambdaAsync, legacyQuery. rewrite Hp. simpl.
  assert (Hq : match body event with
               | Some _ | _ =>
                   Resolved (@QueryParams Json Processed
                               (queryStringParameters event))
               end = Resolved (QueryParams (queryStringParameters event)))
    by now destruct (body event).
  rewrite Hq. simpl. split; [reflexivity|].
  destruct (runHttpQuery I _ _ _) as [r|[st m h|n m st h|es]]; simpl; auto.
Qed.

(** ** The argument checks *)

(** [graphqlLambda] returns a handler exactly when it is called with one
    argument and that argument is truthy; the missing-options error comes
    first, so it is the one thrown for a falsy first argument however
    many arguments follow. *)
Theorem graphqlLambda_arguments I (args : list (option Options)) :
  ((exists handler, graphqlLambdaCall I args = Resolved handler) <->
   exists options, args = [Some options]) /\
  (forall options, args = [Some options] ->
     graphqlLambdaCall I args = Resolved (graphqlHandler I options)) /\
  (hd None args = None ->
     graphqlLambdaCall I args
       = Rejected (OtherError "Error" "Apollo Server requires options."
                     None None)).
Proof.
  unfold graphqlLambdaCall.
  split; [|split].
  - split.
    + intros [handler H].
      destruct args as [|[options|] [|second rest]]; simpl in H;
        try discriminate. now exists options.
    + intros [options ->]. simpl. now eexists.
  - intros options ->. reflexivity.
  - destruct args as [|[options|] rest]; simpl; try discriminate; reflexivity.
Qed.

(** ** An uploaded body and the bridge *)

Lemma Str_app_cons c (s t : string) : String c s ++ t = String c (s ++ t).
Proof. reflexivity. Qed.

Lemma Str_app_nil_r (s : string) : s ++ "" = s.
Proof.
  induction s as [|c s IH]; [reflexivity|]. now rewrite Str_app_cons, IH.
Qed.

Lemma Str_app_assoc (a b c : string) : (a ++ b) ++ c = a ++ (b ++ c).
Proof.
  induction a as [|x a IH]; [reflexivity|]. now rewrite !Str_app_cons, IH.
Qed.

Lemma startsWith_app p a b :
  Str.startsWith p a = true -> Str.startsWith p (a ++ b) = true.
Proof.
  revert a. induction p as [|q p IH]; intros [|x a]; simpl; try congruence.
  intros H. apply andb_true_iff in H as [H1 H2].
  now rewrite H1, (IH a H2).
Qed.

(** A prefix that lacks a character is a prefix of what stands before
    that character. *)
Lemma startsWith_before p a c x :
  Str.includes (String c "") p = false ->
  Str.startsWith p (a ++ String c x) = true -> Str.startsWith p a = true.
Proof.
  revert a. induction p as [|q p IH]; intros a Hc H; [reflexivity|].
  simpl in Hc. apply orb_false_iff in Hc as [Hq Hp].
  rewrite andb_true_r in Hq.
  destruct a as [|y a]; simpl in *.
  - apply andb_true_iff in H as [H1 _]. apply Ascii.eqb_eq in H1. subst q.
    now rewrite Ascii.eqb_refl in Hq.
  - apply andb_true_iff in H as [H1 H2]. rewrite H1. simpl.
    now apply IH.
Qed.

Lemma multipart_is_not_json ct :
  Str.startsWith "multipart/form-data" ct = true ->
  isJsonContentType (Some ct) = false.
Proof.
  intros H. destruct ct as [|c ct]; [discriminate|].
  change (Str.startsWith "multipart/form-data" (String c ct))
    with (Ascii.eqb "m" c && Str.startsWith "ultipart/form-data" ct) in H.
  apply andb_true_iff in H as [H1 _].
  apply Ascii.eqb_eq in H1. subst c. reflexivity.
Qed.

(** Appending only ever extends the value a name already has, after a
    comma and a space. *)
Lemma append_extends (obj : PropertyList) (h : Headers.t) k v :
  h !! k = Some v ->
  exists suffix,
    fold_left (fun h kv => Headers.append (fst kv) (snd kv) h) obj h !! k
      = Some (v ++ suffix) /\
    (suffix = "" \/ exists x, suffix = ", " ++ x).
Proof.
  revert h v. induction obj as [|[k1 v1] rest IH]; intros h v Hk; simpl.
  - exists "". rewrite Str_app_nil_r. auto.
  - unfold Headers.append at 2. simpl.
    destruct (decide (Str.toLowerCase k1 = k)) as [Heq|Hne].
    + rewrite Heq, Hk.
      assert (Hnew : (<[k := v ++ ", " ++ v1]> h : Headers.t) !! k
                     = Some (v ++ ", " ++ v1))
        by apply lookup_insert_eq.
      destruct (IH _ _ Hnew) as (suffix & Hs & _).
      exists (", " ++ v1 ++ suffix). split; [|eauto].
      rewrite Hs. f_equal.
      now rewrite !Str_app_assoc.
    + apply IH.
      destruct (h !! Str.toLowerCase k1);
        now rewrite lookup_insert_ne.
Qed.

Lemma append_other (obj : PropertyList) (h : Headers.t) k :
  Forall (fun kv => Str.toLowerCase (fst kv) <> k) obj ->
  fold_left (fun h kv => Headers.append (fst kv) (snd kv) h) obj h !! k = h !! k.
Proof.
  intros Hall. revert h. induction Hall as [|[k1 v1] rest Hne _ IH];
    intros h; simpl; [reflexivity|].
  rewrite IH. unfold Headers.append. simpl in *.
  destruct (h !! Str.toLowerCase k1); now rewrite lookup_insert_ne.
Qed.

Lemma append_lookup_fresh name v (h : Headers.t) :
  h !! Str.toLowerCase name = None ->
  Headers.append name v h !! Str.toLowerCase name = Some v.
Proof.
  intros H. unfold Headers.append. cbv zeta. rewrite H.
  apply lookup_insert_eq.
Qed.

(** The value [new Headers(obj)] holds under a name begins with the value
    of the first property of [obj] that spells the name. *)
Lemma of_object_first (pre rest : PropertyList) k1 v1 k :
  Forall (fun kv => Str.toLowerCase (fst kv) <> k) pre ->
  Str.toLowerCase k1 = k ->
  exists suffix,
    Headers.of_object (pre ++ (k1, v1) :: rest) !! k = Some (v1 ++ suffix) /\
    (suffix = "" \/ exists x, suffix = ", " ++ x).
Proof.
  intros Hpre Hk1. unfold Headers.of_object.
  rewrite fold_left_app. simpl.
  apply append_extends.
  pose proof (append_other pre Headers.empty k Hpre) as H0.
  unfold Headers.empty in H0 at 2. rewrite lookup_empty in H0.
  cbn [fst snd]. subst k. now apply append_lookup_fresh.
Qed.

Lemma of_object_split_from (obj : PropertyList) (h : Headers.t) k v :
  h !! k = None ->
  fold_left (fun h kv => Headers.append (fst kv) (snd kv) h) obj h !! k = Some v ->
  exists pre k1 v1 rest,
    obj = (pre ++ (k1, v1) :: rest)%list /\
    Forall (fun kv => Str.toLowerCase (fst kv) <> k) pre /\
    Str.toLowerCase k1 = k.
Proof.
  revert h. induction obj as [|[k0 v0] obj IH]; intros h Hnone Hv; simpl in Hv.
  - congruence.
  - destruct (decide (Str.toLowerCase k0 = k)) as [Heq|Hne].
    + exists [], k0, v0, obj. auto.
    + destruct (IH (Headers.append k0 v0 h)) as (pre & k1 & v1 & rest & -> & Hpre & Hk1).
      * unfold Headers.append. simpl.
        destruct (h !! Str.toLowerCase k0); now rewrite lookup_insert_ne.
      * exact Hv.
      * exists ((k0, v0) :: pre), k1, v1, rest. repeat split; auto.
Qed.

(** Writing a lower-case name into the raw object replaces the first
    property that spells the name, if it is spelled exactly so, and
    otherwise leaves that property first. *)
Lemma Obj_set_split (pre rest : PropertyList) k1 v1 k v :
  Str.toLowerCase k = k ->
  Forall (fun kv => Str.toLowerCase (fst kv) <> k) pre ->
  exists v1' rest',
    Obj.set k v (pre ++ (k1, v1) :: rest) = (pre ++ (k1, v1') :: rest')%list /\
    (v1' = v \/ v1' = v1).
Proof.
  intros Hk Hpre. induction Hpre as [|[k0 v0] pre Hne _ IH]; simpl.
  - destruct (String.eqb k1 k); eauto.
  - destruct (String.eqb k0 k) eqn:E.
    + apply String.eqb_eq in E. subst k0. simpl in Hne. congruence.
    + destruct IH as (v1' & rest' & -> & Hv). eauto.
Qed.

(** The content type the bridge reads after an upload still begins with
    [multipart/form-data]. *)
Lemma content_type_after_upload (hdrs : PropertyList) ct :
  Headers.get "content-type" (Headers.of_object hdrs) = Some ct ->
  Str.startsWith "multipart/form-data" ct = true ->
  exists ct',
    Headers.get "content-type"
      (Headers.of_object (Obj.set "content-type" ct hdrs)) = Some ct' /\
    Str.startsWith "multipart/form-data" ct' = true.
Proof.
  unfold Headers.get. lower_names. intros Hct Hmp.
  destruct (of_object_split_from hdrs Headers.empty "content-type" ct
              (lookup_empty _) Hct)
    as (pre & k1 & v1 & rest & -> & Hpre & Hk1).
  destruct (of_object_first pre rest k1 v1 "content-type" Hpre Hk1)
    as (suffix & Hfirst & Hsuffix).
  rewrite Hfirst in Hct. injection Hct as <-.
  assert (Hv1 : Str.startsWith "multipart/form-data" v1 = true).
  { destruct Hsuffix as [-> | [x ->]].
    - now rewrite Str_app_nil_r in Hmp.
    - apply (startsWith_before _ v1 "," (String " " x)); [reflexivity|].
      exact Hmp. }
  destruct (Obj_set_split pre rest k1 v1 "content-type" (v1 ++ suffix)
              eq_refl Hpre) as (v1' & rest' & -> & Hv).
  destruct (of_object_first pre rest' k1 v1' "content-type" Hpre Hk1)
    as (suffix' & -> & _).
  eexists. split; [reflexivity|].
  apply startsWith_app. now destruct Hv as [-> | ->].
Qed.

(** A POST body the upload processor has replaced is never parsed as
    JSON by the bridge: the event's header object, [content-type] written
    into it, still reads as [multipart/form-data].  The bridge tests the
    processor's output as it tests any body: a truthy output is the query
    payload of the one run of the engine, a falsy one is answered as a
    missing body, with status 500 and without a run of the engine. *)
Theorem uploaded_body_reaches_engine S I o event ev' p (options : Options)
    context :
  httpMethod event = "POST" ->
  settled (uploadStep S I o event (Headers.of_object (headers event)))
    = Resolved ev' ->
  body ev' = Uploaded p ->
  let rq := httpQueryRequest options ev' (QueryBody (Uploaded p))
              (Headers.of_object (headers ev')) in
  isJsonContentType
    (Headers.get "content-type" (Headers.of_object (headers ev'))) = false /\
  graphqlHandler I options ev' context
    = if Boolean_of I p
      then ([CallRunHttpQuery ev' context rq],
            bridgeResult (runHttpQuery I ev' context rq))
      else ([], Resolved postBodyMissing).
Proof.
  intros Hm Hstep Hbody. cbv zeta.
  destruct (uploadStep_inv S I o event (Headers.of_object (headers event)))
    as [Hu|(process & b & ct & Hproc & Hb & Hct & Hmp & Hu)];
    rewrite Hu in Hstep.
  - simpl in Hstep. injection Hstep as <-. discriminate.
  - destruct (process _ _) as [p'|e]; simpl in Hstep; [|discriminate].
    injection Hstep as <-. simpl in Hbody. injection Hbody as ->.
    assert (Hsw : Str.startsWith "multipart/form-data" ct = true).
    { unfold isMultipart in Hmp. now apply andb_true_iff in Hmp as [_ ?]. }
    destruct (content_type_after_upload (headers event) ct Hct Hsw)
      as (ct' & Hct' & Hsw').
    rewrite graphqlHandler_run.
    match goal with
    | |- context [isPost ?e && negb _] =>
        assert (Hp : isPost e = true)
          by (unfold isPost; simpl; now rewrite Hm);
        assert (Hh : Headers.get "content-type"
                       (Headers.of_object (headers e)) = Some ct')
          by exact Hct'
    end.
    split; [rewrite Hh; apply (multipart_is_not_json ct' Hsw')|].
    rewrite Hp. cbn [body withBody truthy_body].
    destruct (Boolean_of I p) eqn:Hbool; [|reflexivity].
    simpl negb. cbv zeta. rewrite Hh.
    unfold extractQuery. rewrite Hp. cbn [body withBody truthy_body].
    rewrite Hbool, (multipart_is_not_json ct' Hsw'). reflexivity.
Qed.

End Properties.

(** ** The constructor *)

(** The constructor leaves the configuration alone when there is neither
    an API key in the environment nor a truthy [engine] option.  Otherwise
    [engine] becomes an options object that keeps every property the
    caller gave, a [sendReportsImmediately] of their own included, and has
    [sendReportsImmediately: true] when they gave none; a bare [true], and
    with an API key a bare [false] or no option at all, become that one
    property.  Nothing else of the configuration changes. *)
Theorem constructor_engine_options {V C : Type} (apiKey : option string)
    (options : @Config V C) :
  let after := ApolloServer_constructor apiKey options in
  let given := engineProperties (engine options) in
  otherConfig after = otherConfig options /\
  (truthy_opt apiKey = false -> truthy_engine (engine options) = false ->
     after = options) /\
  (truthy_opt apiKey = true \/ truthy_engine (engine options) = true ->
     exists r,
       engine after = Some (EngineReporting r) /\
       (forall k v, given !! k = Some v -> r !! k = Some v) /\
       (forall k, k <> "sendReportsImmediately" -> r !! k = given !! k) /\
       (given !! "sendReportsImmediately" = None ->
          r !! "sendReportsImmediately" = Some (EngineBool true)) /\
       (given = ∅ -> r = {["sendReportsImmediately" := EngineBool true]})).
Proof.
  cbv zeta. unfold ApolloServer_constructor. repeat apply conj.
  - now destruct (truthy_opt apiKey || truthy_engine (engine options)).
  - now intros -> ->.
  - intros H.
    assert (E : truthy_opt apiKey || truthy_engine (engine options) = true).
    { destruct H as [-> | ->]; [reflexivity | apply orb_true_r]. }
    rewrite E. simpl. eexists. split; [reflexivity|]. repeat apply conj.
    + intros k v Hk. rewrite lookup_union, Hk.
      now destruct ({[_ := _]} !! k).
    + intros k Hk. rewrite lookup_union, lookup_singleton_ne by congruence.
      now destruct (engineProperties (engine options) !! k).
    + intros Hk. now rewrite lookup_union, Hk, lookup_singleton_eq.
    + intros ->. apply (left_id_L ∅ (∪)).
Qed.

(** * The properties on sample requests *)

(** C1 on a query through the primary path: the methods header of the base
    policy is among the headers of the result delivered. *)
Lemma base_cors_headers_witness :
  let o := Sample.options (Some (Sample.corsWith (Some (OriginBool true)))) false in
  exists r h,
    delivered (delivery (createHandler (Sample.server None)
                 (Sample.imports Sample.answer None) o Sample.graphqlGet
                 (Sample.lambdaContext true))) = Resolved r /\
    corsHeaders (cors o) !! "access-control-allow-methods" = Some "GET,POST" /\
    resultHeaders r = Some h /\
    h !! "access-control-allow-methods" = Some "GET,POST".
Proof.
  cbv zeta.
  destruct (delivered (delivery (createHandler (Sample.server None)
              (Sample.imports Sample.answer None)
              (Sample.options (Some (Sample.corsWith (Some (OriginBool true)))) false)
              Sample.graphqlGet (Sample.lambdaContext true))))
    as [r|e] eqn:Hd; [|vm_compute in Hd; discriminate].
  assert (Hb : corsHeaders (Some (Sample.corsWith (Some (OriginBool true))))
                 !! "access-control-allow-methods" = Some "GET,POST")
    by (vm_compute; reflexivity).
  destruct (base_cors_headers_in_every_response _ _ _ _ _ r _ _ Hd Hb)
    as (h & Hh & Hk).
  exists r, h. auto.
Defined.

(** C2: a policy with an empty literal origin sets no header, where the
    claim has the header equal to that string. *)
Lemma empty_origin_string_omits_header :
  let c := Sample.corsWith (Some (OriginString "")) in
  origin c = Some (OriginString "") /\
  Headers.get "access-control-allow-origin"
    (requestCorsHeaders (Some c)
       (Headers.of_object [("Origin", "https://a.example")])) = None.
Proof. split; reflexivity. Qed.

(** C2 (amended) on a literal origin, a reflected origin and a listed
    origin. *)
Lemma allow_origin_header_witness :
  let eh := Headers.of_object [("Origin", "https://a.example")] in
  let allowOrigin og :=
    Headers.get "access-control-allow-origin"
      (requestCorsHeaders (Some (Sample.corsWith (Some og))) eh) in
  Headers.get "origin" eh = Some "https://a.example" /\
  allowOrigin (OriginString "*") = Some "*" /\
  allowOrigin (OriginBool true) = Some "https://a.example" /\
  allowOrigin (OriginList ["https://b.example"; "https://a.example"])
    = Some "https://a.example" /\
  allowOrigin (OriginList ["https://b.example"]) = None.
Proof.
  cbv zeta. split; [reflexivity|].
  repeat apply conj.
  - apply (proj1 (allow_origin_header
             (Sample.corsWith (Some (OriginString "*"))) _) "*");
      [reflexivity | discriminate].
  - apply (proj1 (proj2 (allow_origin_header
             (Sample.corsWith (Some (OriginBool true))) _))
             "https://a.example"); [reflexivity | reflexivity | discriminate].
  - apply (proj1 (proj2 (proj2 (proj2 (allow_origin_header
             (Sample.corsWith
                (Some (OriginList ["https://b.example"; "https://a.example"])))
             _)))) ["https://b.example"; "https://a.example"]
             "https://a.example");
      [reflexivity | reflexivity | discriminate | simpl; tauto].
  - apply (proj1 (proj2 (proj2 (proj2 (proj2 (allow_origin_header
             (Sample.corsWith (Some (OriginList ["https://b.example"]))) _)))))
             ["https://b.example"] "https://a.example");
      [reflexivity | reflexivity |].
    simpl. intros [H|[]]. discriminate H.
Defined.

(** C3: whatever the collaborators, neither handler of
    [lambdaApollo.ts] ever hands the engine the raw body of a
    [text/plain] POST, and a body that fails to parse leaves the callback
    handler as a thrown error instead of a 415 result. *)
Lemma legacy_bridge_parses_every_post_body :
  isJsonContentType
    (Headers.get "content-type"
       (Headers.of_object (headers Sample.plainPost))) = false /\
  body Sample.plainPost = Some "{ me }" /\
  (forall (I : @Imports string string unit) context ev ctx rq,
     In (CallRunHttpQuery ev ctx rq)
        (legacyCalls (legacy_graphqlLambda I tt Sample.plainPost context)) ->
     rqQuery rq <> QueryBody (Original (Some "{ me }"))) /\
  (forall (I : @Imports string string unit) context ev ctx rq,
     In (CallRunHttpQuery ev ctx rq)
        (fst (legacy_graphqlLambdaAsync I tt Sample.plainPost context)) ->
     rqQuery rq <> QueryBody (Original (Some "{ me }"))) /\
  (forall (I : @Imports string string unit) context e,
     JSON_parse I "{ me }" = Rejected e ->
     legacyEnd (legacy_graphqlLambda I tt Sample.plainPost context) = Threw e).
Proof.
  repeat apply conj; [reflexivity | reflexivity | | |].
  - intros I context ev ctx rq.
    unfold legacy_graphqlLambda, legacyQuery. simpl.
    destruct (JSON_parse I "{ me }") as [j|e]; simpl; [|tauto].
    intros [H|[]]. injection H as <- <- <-. simpl. discriminate.
  - intros I context ev ctx rq.
    unfold legacy_graphqlLambdaAsync, legacyQuery. simpl.
    destruct (JSON_parse I "{ me }") as [j|e]; simpl; [|tauto].
    intros [H|[]]. injection H as <- <- <-. simpl. discriminate.
  - intros I context e He.
    unfold legacy_graphqlLambda, legacyQuery. simpl. now rewrite He.
Qed.

(** C3 (amended) on a POST without body, on the text the sample parser
    rejects, and on a [text/plain] body. *)
Lemma post_body_handling_witness :
  let I := Sample.imports Sample.answer None in
  let context := Sample.lambdaContext false in
  let plain : APIGatewayProxyEvent (@Body string) :=
    asBridgeEvent Sample.plainPost in
  graphqlHandler I tt (Sample.jsonPost None) context
    = ([], Resolved postBodyMissing) /\
  graphqlHandler I tt (Sample.jsonPost (Some "{")) context
    = ([], Resolved jsonParseFailed) /\
  (exists rq,
     trace (graphqlHandler I tt plain context)
       = [CallRunHttpQuery plain context rq] /\
     rqQuery rq = QueryBody (Original (Some "{ me }"))) /\
  (exists ev' ctx' rq,
     legacyCalls (legacy_graphqlLambda I tt Sample.plainPost context)
       = [CallRunHttpQuery ev' ctx' rq] /\
     rqQuery rq = QueryJson "{ me }") /\
  (exists ev' ctx' rq,
     fst (legacy_graphqlLambdaAsync I tt Sample.plainPost context)
       = [CallRunHttpQuery ev' ctx' rq] /\
     rqQuery rq = QueryJson "{ me }").
Proof.
  cbv zeta.
  pose proof (post_body_handling (Sample.imports Sample.answer None) tt
                (Sample.lambdaContext false)) as [Hnow Hold].
  repeat apply conj.
  - apply (Hnow (Sample.jsonPost None) eq_refl). reflexivity.
  - apply (proj1 (proj2 (Hnow (Sample.jsonPost (Some "{")) eq_refl))
             (OtherError "SyntaxError" "Unexpected end of JSON input" None None));
      reflexivity.
  - apply (proj2 (proj2 (Hnow (asBridgeEvent Sample.plainPost) eq_refl))
             "{ me }"); [reflexivity | discriminate | reflexivity].
  - apply (proj2 (Hold Sample.plainPost eq_refl) "{ me }" eq_refl).
    discriminate.
  - apply (proj2 (Hold Sample.plainPost eq_refl) "{ me }" eq_refl).
    discriminate.
Defined.

(** C4: the engine sets [access-control-allow-origin] and so does the
    policy; the header delivered carries the policy's value, where the
    claim has the engine's value win. *)
Lemma cors_overrides_engine_header :
  let o := Sample.options (Some (Sample.corsWith (Some (OriginString "*")))) true in
  let inv := createHandler (Sample.server None)
               (Sample.imports Sample.answerWithOrigin None) o
               Sample.graphqlGet (Sample.lambdaContext true) in
  Outcome_map (fun r => resultBody r) (delivered (delivery inv))
    = Resolved "{ data }" /\
  Outcome_map
    (fun r => spread_opt (resultHeaders r) !! "access-control-allow-origin")
    (delivered (delivery inv)) = Resolved (Some "*") /\
  Outcome_map
    (fun r : HttpQueryResponse =>
       spread_opt (responseInitHeaders r) !! "access-control-allow-origin")
    (Sample.answerWithOrigin (asBridgeEvent Sample.graphqlGet)
       (Sample.lambdaContext true)
       (httpQueryRequest tt (asBridgeEvent Sample.graphqlGet)
          (QueryParams (queryStringParameters Sample.graphqlGet))
          (Headers.of_object (headers Sample.graphqlGet))))
    = Resolved (Some "https://engine.example").
Proof. cbv zeta. repeat apply conj; vm_compute; reflexivity. Qed.

(** C4 (amended) on a query the sample engine answers: the engine's
    content type and the reflected origin are both delivered. *)
Lemma execution_headers_merge_witness :
  let I := Sample.imports Sample.answer None in
  let o := Sample.options (Some (Sample.corsWith (Some (OriginBool true)))) false in
  let inv := createHandler (Sample.server None) I o Sample.graphqlGet
               (Sample.lambdaContext false) in
  let ev : APIGatewayProxyEvent (@Body string) := asBridgeEvent Sample.graphqlGet in
  let rq := httpQueryRequest tt ev
              (QueryParams (queryStringParameters Sample.graphqlGet))
              (Headers.of_object (headers Sample.graphqlGet)) in
  In (CallRunHttpQuery ev (Sample.lambdaContext false) rq) (calls inv) /\
  exists h,
    delivered (delivery inv)
      = Resolved {| resultBody := "{ data }"; statusCode := 200;
                    resultHeaders := Some h |} /\
    h !! "access-control-allow-origin" = Some "https://a.example" /\
    h !! "Content-Type" = Some "application/json".
Proof.
  cbv zeta.
  assert (Hin : In (CallRunHttpQuery (asBridgeEvent Sample.graphqlGet)
                      (Sample.lambdaContext false)
                      (httpQueryRequest tt (asBridgeEvent Sample.graphqlGet)
                         (QueryParams (queryStringParameters Sample.graphqlGet))
                         (Headers.of_object (headers Sample.graphqlGet))))
                   (calls (createHandler (Sample.server None)
                      (Sample.imports Sample.answer None)
                      (Sample.options
                         (Some (Sample.corsWith (Some (OriginBool true)))) false)
                      Sample.graphqlGet (Sample.lambdaContext false)))).
  { right. right. left. reflexivity. }
  split; [exact Hin|].
  destruct (execution_headers_merge _ _ _ _ _ _ _ _ _ Hin eq_refl)
    as (h & Hd & Hcors & Hengine & _).
  exists h. split; [exact Hd|]. split.
  - apply Hcors. reflexivity.
  - rewrite Hengine; reflexivity.
Defined.

(** C5 on a preflight request in callback mode. *)
Lemma preflight_short_circuit_witness :
  let o := Sample.options (Some (Sample.corsWith (Some (OriginBool true)))) false in
  let inv := createHandler (Sample.server (Some ∅))
               (Sample.imports Sample.answer None) o Sample.preflight
               (Sample.lambdaContext true) in
  httpMethod Sample.preflight = "OPTIONS" /\
  delivery inv =
    CallbackInvoked
      (Resolved {| resultBody := ""; statusCode := 204;
                   resultHeaders :=
                     Some (requestCorsHeadersObject (cors o)
                             (Headers.of_object (headers Sample.preflight))) |}) /\
  calls inv = [].
Proof.
  cbv zeta. split; [reflexivity|].
  destruct (preflight_short_circuit (Sample.server (Some ∅))
              (Sample.imports Sample.answer None)
              (Sample.options (Some (Sample.corsWith (Some (OriginBool true)))) false)
              Sample.preflight (Sample.lambdaContext true) eq_refl)
    as (_ & Hsync & Hcalls).
  split; [apply Hsync; reflexivity | exact Hcalls].
Defined.

(** C6: the tool configuration names its own endpoint, and the renderer
    receives that one, where the claim has it equal to the request path. *)
Lemma tool_endpoint_from_configuration :
  let inv := createHandler (Sample.server (Some Sample.devPlayground))
               (Sample.imports Sample.answer None) (Sample.options None false)
               Sample.browserGet (Sample.lambdaContext true) in
  path Sample.browserGet = Some "/graphql" /\
  acceptsHtml Sample.browserGet = true /\
  calls inv = [CallRenderPlaygroundPage {["endpoint" := "/dev/graphql"]}] /\
  Outcome_map statusCode (delivered (delivery inv)) = Resolved 200.
Proof. cbv zeta. repeat apply conj; vm_compute; reflexivity. Qed.

(** C6 (amended) on a browser's GET with a tool configuration that names
    no endpoint. *)
Lemma tool_page_short_circuit_witness :
  let S : @ApolloServerBase string unit := Sample.server (Some ∅) in
  let I := Sample.imports Sample.answer None in
  let inv := createHandler S I (Sample.options None false) Sample.browserGet
               (Sample.lambdaContext true) in
  playgroundOptions S = Some ∅ /\
  httpMethod Sample.browserGet = "GET" /\
  Str.includes "text/html" "text/html,application/xhtml+xml" = true /\
  exists opts h,
    delivery inv =
      CallbackInvoked
        (Resolved {| resultBody := renderPlaygroundPage I opts;
                     statusCode := 200; resultHeaders := Some h |}) /\
    h !! "Content-Type" = Some "text/html" /\
    calls inv = [CallRenderPlaygroundPage opts] /\
    opts !! "endpoint" = Some "/graphql".
Proof.
  cbv zeta. do 3 (split; [reflexivity|]).
  destruct (tool_page_short_circuit (Sample.server (Some ∅))
              (Sample.imports Sample.answer None) (Sample.options None false)
              Sample.browserGet (Sample.lambdaContext true) ∅
              "text/html,application/xhtml+xml"
              eq_refl eq_refl eq_refl eq_refl)
    as (opts & h & Hd & _ & Hct & _ & Hcalls & _ & Hpath).
  exists opts, h. repeat apply conj; try assumption.
  apply (Hpath "/graphql"); [reflexivity | reflexivity | discriminate].
Defined.

(** C7 on a multipart POST with an upload processor that resolves to the
    chunk it is given. *)
Lemma upload_replaces_body_witness :
  let event := Sample.multipartPost in
  let ct := "multipart/form-data; boundary=x" in
  exists ev',
    uploadStep (Sample.server None)
      (Sample.imports Sample.answer (Some Sample.uploadOk))
      (Sample.options None false) event (Headers.of_object (headers event))
    = ([CallProcessFileUploads (uploadRequest event ct "LS14LS0=")
          (uploadsConfigOrEmpty (Sample.options None false))],
       Resolved ev') /\
    body ev' = Uploaded "LS14LS0=" /\
    chunkEncoding (uploadRequest event ct "LS14LS0=") = ascii.
Proof.
  cbv zeta.
  destruct (proj1 (upload_replaces_body (Sample.server None)
              (Sample.imports Sample.answer (Some Sample.uploadOk))
              (Sample.options None false) Sample.multipartPost)
              Sample.uploadOk "LS14LS0=" "multipart/form-data; boundary=x"
              "LS14LS0=" eq_refl eq_refl eq_refl eq_refl eq_refl)
    as (ev' & Hstep & Hbody & _ & Henc).
  exists ev'. repeat apply conj; assumption.
Defined.

(** C8 on an engine that refuses the query with a structured error, and on
    an upload the processor fails on. *)
Lemma error_recovery_witness :
  let S : @ApolloServerBase string unit := Sample.server None in
  let o := Sample.options None true in
  let context := Sample.lambdaContext true in
  let refused := createHandler S (Sample.imports Sample.refuse None) o
                   Sample.graphqlGet context in
  let failed := createHandler S
                  (Sample.imports Sample.answer (Some Sample.uploadFails)) o
                  Sample.multipartPost context in
  delivered (delivery refused)
    = Resolved {| resultBody := "Must provide query string."; statusCode := 400;
                  resultHeaders :=
                    Some (spread {["Content-Type" := "text/plain"]}
                            (requestCorsHeadersObject (cors o)
                               (Headers.of_object (headers Sample.graphqlGet)))) |} /\
  delivered (delivery failed)
    = Rejected (ErrorArray [OtherError "PayloadTooLargeError" "File truncated" None None]).
Proof.
  cbv zeta. split.
  - change {["Content-Type" := "text/plain"]}
      with (spread_opt (Some ({["Content-Type" := "text/plain"]} : HeaderObject))).
    apply (proj1 (proj2 (error_recovery (Sample.server None)
             (Sample.imports Sample.refuse None) (Sample.options None true)
             Sample.graphqlGet (Sample.lambdaContext true)))
             (asBridgeEvent Sample.graphqlGet) (Sample.lambdaContext true)
             (httpQueryRequest tt (asBridgeEvent Sample.graphqlGet)
                (QueryParams (queryStringParameters Sample.graphqlGet))
                (Headers.of_object (headers Sample.graphqlGet)))
             400 "Must provide query string."
             (Some {["Content-Type" := "text/plain"]})).
    + right. right. left. reflexivity.
    + reflexivity.
  - apply (proj1 (proj2 (proj2 (error_recovery (Sample.server None)
             (Sample.imports Sample.answer (Some Sample.uploadFails))
             (Sample.options None true) Sample.multipartPost
             (Sample.lambdaContext true))))
             Sample.uploadFails
             (uploadRequest Sample.multipartPost
                "multipart/form-data; boundary=x" "LS14LS0=")
             (uploadsConfigOrEmpty (Sample.options None true))
             (OtherError "PayloadTooLargeError" "File truncated" None None)).
    + reflexivity.
    + right. left. reflexivity.
    + reflexivity.
Defined.

(** C9: an engine whose answer reports the context's wait flag answers
    differently in the two modes, the flag being set on entry. *)
Lemma modes_differ_on_wait_flag :
  let run isAsync :=
    createHandler (Sample.server None)
      (Sample.imports Sample.answerWaitFlag None)
      (Sample.options None isAsync) Sample.graphqlGet
      (Sample.lambdaContext true) in
  Outcome_map resultBody (delivered (delivery (run false)))
    = Resolved "{ waits: false }" /\
  Outcome_map resultBody (delivered (delivery (run true)))
    = Resolved "{ waits: true }".
Proof. cbv zeta. split; vm_compute; reflexivity. Qed.

(** C9 (amended) on the same engine with the flag clear on entry. *)
Lemma delivery_modes_agree_witness :
  let run isAsync :=
    createHandler (Sample.server None)
      (Sample.imports Sample.answerWaitFlag None)
      (Sample.options None isAsync) Sample.graphqlGet
      (Sample.lambdaContext false) in
  callbackWaitsForEmptyEventLoop (Sample.lambdaContext false) = false /\
  delivered (delivery (run false)) = delivered (delivery (run true)) /\
  Outcome_map resultBody (delivered (delivery (run false)))
    = Resolved "{ waits: false }".
Proof.
  cbv zeta. split; [reflexivity|]. split.
  - apply (proj1 (proj2 (proj2 (proj2 (proj2
             (delivery_modes_agree (Sample.server None)
                (Sample.imports Sample.answerWaitFlag None)
                (Sample.options None false) Sample.graphqlGet
                (Sample.lambdaContext false))))))).
    reflexivity.
  - vm_compute. reflexivity.
Defined.

(** C10: the event has no path and its request context has one, yet the
    renderer receives the endpoint the tool configuration names. *)
Lemma fallback_endpoint_from_configuration :
  let inv := createHandler (Sample.server (Some Sample.devPlayground))
               (Sample.imports Sample.answer None) (Sample.options None false)
               Sample.browserGetNoPath (Sample.lambdaContext true) in
  path Sample.browserGetNoPath = None /\
  requestContext Sample.browserGetNoPath
    = Some {| requestPath := Some "/prod/graphql" |} /\
  calls inv = [CallRenderPlaygroundPage {["endpoint" := "/dev/graphql"]}] /\
  Outcome_map statusCode (delivered (delivery inv)) = Resolved 200.
Proof. cbv zeta. repeat apply conj; vm_compute; reflexivity. Qed.

(** C10 (amended) on the same event with a tool configuration that names
    no endpoint. *)
Lemma tool_page_endpoint_fallback_witness :
  let S : @ApolloServerBase string unit := Sample.server (Some ∅) in
  let I := Sample.imports Sample.answer None in
  let inv := createHandler S I (Sample.options None false)
               Sample.browserGetNoPath (Sample.lambdaContext true) in
  truthy_opt (path Sample.browserGetNoPath) = false /\
  toolEndpoint Sample.browserGetNoPath = "/prod/graphql" /\
  exists opts r,
    delivered (delivery inv) = Resolved r /\
    statusCode r = 200 /\
    calls inv = [CallRenderPlaygroundPage opts] /\
    opts !! "endpoint" = Some "/prod/graphql".
Proof.
  cbv zeta. split; [reflexivity|].
  destruct (tool_page_endpoint_fallback (Sample.server (Some ∅))
              (Sample.imports Sample.answer None) (Sample.options None false)
              Sample.browserGetNoPath (Sample.lambdaContext true) ∅
              eq_refl eq_refl eq_refl eq_refl)
    as (Hend & opts & r & Hd & Hs & _ & Hc & Hopt).
  split; [exact Hend|].
  exists opts, r. repeat apply conj; assumption.
Defined.

(** * The further properties on sample requests *)

(** The max-age header of a policy of ten minutes, and of one of 1e21
    seconds, which [toString] prints with an exponent. *)
Lemma base_cors_header_values_witness :
  corsHeaders (Some (Sample.corsWith None)) !! "access-control-max-age"
    = Some "600" /\
  corsHeaders (Some Sample.corsWithLongAge) !! "access-control-max-age"
    = Some "1e+21" /\
  corsHeaders (Some Sample.corsWithLongAge) !! "access-control-allow-methods"
    = None.
Proof.
  split; [|split].
  - exact (proj1 (proj2 (proj2 (proj2 (proj2
             (base_cors_header_values (Sample.corsWith None))))))).
  - exact (proj1 (proj2 (proj2 (proj2 (proj2
             (base_cors_header_values Sample.corsWithLongAge)))))).
  - exact (proj1 (base_cors_header_values Sample.corsWithLongAge)).
Defined.

(** A preflight that asks for [content-type], under a policy without a list of
    allowed headers: the request's own list is what is allowed. *)
Lemma request_headers_reflection_witness :
  let c := Sample.corsWith (Some (OriginBool true)) in
  let eh := Headers.of_object (headers Sample.preflight) in
  truthy_sl (allowedHeaders c) = false /\
  Headers.get "access-control-request-headers" eh = Some "content-type" /\
  requestCorsHeaders (Some c) eh !! "access-control-allow-headers"
    = Some "content-type".
Proof.
  cbv zeta. do 2 (split; [reflexivity|]).
  apply (proj1 (proj2 (request_headers_reflection
           (Sample.corsWith (Some (OriginBool true)))
           (Headers.of_object (headers Sample.preflight))))
           eq_refl eq_refl "content-type" eq_refl).
  discriminate.
Defined.

(** The allow-origin header of a request under an origin-reflecting policy is
    one of the six CORS names. *)
Lemma cors_object_names_witness :
  let obj := requestCorsHeadersObject
               (Some (Sample.corsWith (Some (OriginBool true))))
               (Headers.of_object (headers Sample.graphqlGet)) in
  obj !! "access-control-allow-origin" = Some "https://a.example" /\
  In "access-control-allow-origin" requestNames.
Proof.
  cbv zeta.
  assert (H : requestCorsHeadersObject
                (Some (Sample.corsWith (Some (OriginBool true))))
                (Headers.of_object (headers Sample.graphqlGet))
                !! "access-control-allow-origin" = Some "https://a.example")
    by reflexivity.
  split; [exact H|]. exact (proj1 (cors_object_names _ _ _ _ H)).
Defined.

(** A query without any CORS policy: the result carries the engine's headers
    and no other. *)
Lemma no_cors_policy_witness :
  let o := Sample.options None false in
  cors o = None /\
  delivered (delivery (createHandler (Sample.server None)
               (Sample.imports Sample.answer None) o Sample.graphqlGet
               (Sample.lambdaContext false)))
    = Resolved {| resultBody := "{ data }"; statusCode := 200;
                  resultHeaders := Some Sample.jsonHeaders |}.
Proof.
  cbv zeta. split; [reflexivity|].
  rewrite (proj2 (proj2 (no_cors_policy_adds_no_header (Sample.server None)
             (Sample.imports Sample.answer None) (Sample.options None false)
             Sample.graphqlGet (Sample.lambdaContext false) eq_refl))
             (asBridgeEvent Sample.graphqlGet) (Sample.lambdaContext false)
             (httpQueryRequest tt (asBridgeEvent Sample.graphqlGet)
                (QueryParams (queryStringParameters Sample.graphqlGet))
                (Headers.of_object (headers Sample.graphqlGet)))).
  - reflexivity.
  - right. right. left. reflexivity.
Defined.

(** A browser's GET on a server with a tool configuration: the renderer is the
    only collaborator called. *)
Lemma tool_page_only_when_asked_witness :
  let S : @ApolloServerBase string unit := Sample.server (Some ∅) in
  let inv := createHandler S (Sample.imports Sample.answer None)
               (Sample.options None false) Sample.browserGet
               (Sample.lambdaContext true) in
  In (CallRenderPlaygroundPage {["endpoint" := "/graphql"]}) (calls inv) /\
  httpMethod Sample.browserGet = "GET" /\
  acceptsHtml Sample.browserGet = true /\
  calls inv = [CallRenderPlaygroundPage {["endpoint" := "/graphql"]}].
Proof.
  cbv zeta.
  assert (Hin : In (CallRenderPlaygroundPage {["endpoint" := "/graphql"]})
                  (calls (createHandler (Sample.server (Some ∅))
                     (Sample.imports Sample.answer None)
                     (Sample.options None false) Sample.browserGet
                     (Sample.lambdaContext true))))
    by (left; reflexivity).
  destruct (tool_page_only_when_asked _ _ _ _ _ _ Hin)
    as (pg & _ & Hm & Ha & _ & Hc).
  auto.
Defined.

(** An accept header spelt [ACCEPT] is found by the Fetch headers but not by
    the handler, which goes on to the primary path. *)
Lemma accept_header_spellings_witness :
  Obj.get "Accept" (headers Sample.browserGetCapitals) = None /\
  Obj.get "accept" (headers Sample.browserGetCapitals) = None /\
  Headers.get "accept" (Headers.of_object (headers Sample.browserGetCapitals))
    = Some "text/html" /\
  exists rest,
    calls (createHandler (Sample.server (Some ∅))
             (Sample.imports Sample.answer None) (Sample.options None false)
             Sample.browserGetCapitals (Sample.lambdaContext true))
    = AwaitWillStart :: rest.
Proof.
  do 3 (split; [reflexivity|]).
  apply accept_header_spellings; [reflexivity|].
  left. split; reflexivity.
Defined.

(** A query through the primary path: startup, options, engine, in that
    order. *)
Lemma engine_run_comes_last_witness :
  let inv := createHandler (Sample.server None)
               (Sample.imports Sample.answer (Some Sample.uploadOk))
               (Sample.options None true) Sample.graphqlGet
               (Sample.lambdaContext true) in
  let ev : APIGatewayProxyEvent (@Body string) := asBridgeEvent Sample.graphqlGet in
  let rq := httpQueryRequest tt ev
              (QueryParams (queryStringParameters Sample.graphqlGet))
              (Headers.of_object (headers Sample.graphqlGet)) in
  In (CallRunHttpQuery ev (Sample.lambdaContext true) rq) (calls inv) /\
  exists pre,
    calls inv
      = (AwaitWillStart :: pre
         ++ [CallCreateGraphQLServerOptions ev (Sample.lambdaContext true);
             CallRunHttpQuery ev (Sample.lambdaContext true) rq])%list.
Proof.
  cbv zeta.
  assert (Hin : In (CallRunHttpQuery (asBridgeEvent Sample.graphqlGet)
                      (Sample.lambdaContext true)
                      (httpQueryRequest tt (asBridgeEvent Sample.graphqlGet)
                         (QueryParams (queryStringParameters Sample.graphqlGet))
                         (Headers.of_object (headers Sample.graphqlGet))))
                   (calls (createHandler (Sample.server None)
                      (Sample.imports Sample.answer (Some Sample.uploadOk))
                      (Sample.options None true) Sample.graphqlGet
                      (Sample.lambdaContext true))))
    by (right; right; left; reflexivity).
  split; [exact Hin|].
  destruct (engine_run_comes_last _ _ _ _ _ _ _ _ Hin) as (pre & Hc & _).
  exists pre. exact Hc.
Defined.

(** A server whose startup fails, on an upload request: the startup is awaited
    and its error delivered, the upload processor not being called. *)
Lemma startup_failure_witness :
  let inv := createHandler Sample.serverFailing
               (Sample.imports Sample.answer (Some Sample.uploadOk))
               (Sample.options None true) Sample.multipartPost
               (Sample.lambdaContext true) in
  willStart Sample.serverFailing
    = Rejected (OtherError "Error" "schema failed to load" None None) /\
  calls inv = [AwaitWillStart] /\
  delivered (delivery inv)
    = Rejected (OtherError "Error" "schema failed to load" None None).
Proof.
  cbv zeta. split; [reflexivity|].
  destruct (startup_failure_stops_the_run Sample.serverFailing
              (Sample.imports Sample.answer (Some Sample.uploadOk))
              (Sample.options None true) Sample.multipartPost
              (Sample.lambdaContext true)
              (OtherError "Error" "schema failed to load" None None) eq_refl)
    as [H|[[opts H]|H]].
  - vm_compute in H. discriminate H.
  - vm_compute in H. discriminate H.
  - exact H.
Defined.

(** A POST without body under a policy with a literal origin. *)
Lemma post_without_body_witness :
  let o := Sample.options (Some (Sample.corsWith (Some (OriginString "*")))) true in
  let inv := createHandler (Sample.server None)
               (Sample.imports Sample.answer None) o Sample.emptyPost
               (Sample.lambdaContext true) in
  httpMethod Sample.emptyPost = "POST" /\
  body Sample.emptyPost = None /\
  delivered (delivery inv)
    = Resolved {| resultBody := "POST body missing."; statusCode := 500;
                  resultHeaders :=
                    Some (requestCorsHeadersObject (cors o)
                            (Headers.of_object (headers Sample.emptyPost))) |} /\
  calls inv = [AwaitWillStart;
               CallCreateGraphQLServerOptions (asBridgeEvent Sample.emptyPost)
                 (Sample.lambdaContext true)].
Proof.
  cbv zeta. do 2 (split; [reflexivity|]).
  exact (post_without_body_through_handler (Sample.server None)
           (Sample.imports Sample.answer None)
           (Sample.options (Some (Sample.corsWith (Some (OriginString "*")))) true)
           Sample.emptyPost (Sample.lambdaContext true) tt
           eq_refl eq_refl eq_refl eq_refl).
Defined.

(** A GET query: its query-string parameters are the payload. *)
Lemma bridge_query_string_witness :
  let I := Sample.imports Sample.answer None in
  let ev : APIGatewayProxyEvent (@Body string) := asBridgeEvent Sample.graphqlGet in
  let context := Sample.lambdaContext true in
  let rq := httpQueryRequest tt ev
              (QueryParams (Some {["query" := "{ __typename }"]}))
              (Headers.of_object (headers ev)) in
  httpMethod ev <> "POST" /\
  graphqlHandler I tt ev context
    = ([CallRunHttpQuery ev context rq],
       bridgeResult (runHttpQuery I ev context rq)).
Proof.
  cbv zeta.
  assert (Hm : httpMethod (asBridgeEvent Sample.graphqlGet
                           : APIGatewayProxyEvent (@Body string)) <> "POST")
    by discriminate.
  split; [exact Hm|].
  exact (proj1 (bridge_query_string (Sample.imports Sample.answer None) tt
                  (asBridgeEvent Sample.graphqlGet) (Sample.lambdaContext true)
                  Hm)).
Defined.

(** A JSON POST whose body parses. *)
Lemma bridge_parsed_json_witness :
  let I := Sample.imports Sample.answer None in
  let ev := Sample.jsonPost (Some "{ me }") in
  let context := Sample.lambdaContext true in
  JSON_parse I "{ me }" = Resolved "{ me }" /\
  graphqlHandler I tt ev context
    = ([CallRunHttpQuery ev context
          (httpQueryRequest tt ev (QueryJson "{ me }")
             (Headers.of_object (headers ev)))],
       bridgeResult
         (runHttpQuery I ev context
            (httpQueryRequest tt ev (QueryJson "{ me }")
               (Headers.of_object (headers ev))))).
Proof.
  cbv zeta. split; [reflexivity|].
  apply (bridge_parsed_json (Sample.imports Sample.answer None) tt
           (Sample.jsonPost (Some "{ me }")) (Sample.lambdaContext true)
           "{ me }" "{ me }"); try reflexivity.
  discriminate.
Defined.

(** An upload request whose content type is spelt [Content-Type]: after the
    step the header object has that property still, and [content-type]
    beside it. *)
Lemma upload_step_frame_witness :
  let S : @ApolloServerBase string unit := Sample.server None in
  let I := Sample.imports Sample.answer (Some Sample.uploadOk) in
  let event := Sample.multipartPost in
  let ev' : APIGatewayProxyEvent (@Body string) :=
    withBody event
      (Obj.set "content-type" "multipart/form-data; boundary=x" (headers event))
      (Uploaded "LS14LS0=") in
  settled (uploadStep S I (Sample.options None false) event
             (Headers.of_object (headers event))) = Resolved ev' /\
  httpMethod ev' = "POST" /\
  Obj.get "Content-Type" (headers ev') = Some "multipart/form-data; boundary=x" /\
  Obj.get "content-type" (headers ev') = Some "multipart/form-data; boundary=x".
Proof.
  cbv zeta.
  assert (Hs : settled (uploadStep (Sample.server None)
                  (Sample.imports Sample.answer (Some Sample.uploadOk))
                  (Sample.options None false) Sample.multipartPost
                  (Headers.of_object (headers Sample.multipartPost)))
               = Resolved
                   (withBody Sample.multipartPost
                      (Obj.set "content-type" "multipart/form-data; boundary=x"
                         (headers Sample.multipartPost))
                      (Uploaded "LS14LS0=")))
    by reflexivity.
  split; [exact Hs|].
  destruct (upload_step_frame _ _ _ _ _ Hs)
    as (Hm & _ & _ & _ & _ & Hk & _ & Hup).
  split; [rewrite Hm; reflexivity|]. split.
  - rewrite Hk; [reflexivity | discriminate].
  - destruct Hup as [Hct _]; [discriminate|]. rewrite Hct. reflexivity.
Defined.

(** A query error of another copy of the engine's module on a GET request:
    the present bridge throws it again, the earlier promise handler
    answers with its message, status code and headers. *)
Lemma bridge_then_and_now_witness :
  let I := Sample.imports Sample.refuseLookalike None in
  let context := Sample.lambdaContext true in
  httpMethod Sample.graphqlGet <> "POST" /\
  settled (graphqlHandler I tt (asBridgeEvent Sample.graphqlGet) context)
    = Rejected (OtherError "HttpQueryError" "Must provide query string."
                  (Some 400) (Some {["Content-Type" := "text/plain"]})) /\
  snd (legacy_graphqlLambdaAsync I tt Sample.graphqlGet context)
    = Resolved {| looseBody := Some "Must provide query string.";
                  looseStatusCode := Some 400;
                  looseHeaders := Some {["Content-Type" := "text/plain"]} |}.
Proof.
  cbv zeta.
  assert (Hm : httpMethod Sample.graphqlGet <> "POST") by discriminate.
  split; [exact Hm|].
  destruct (bridge_then_and_now (Sample.imports Sample.refuseLookalike None) tt
              Sample.graphqlGet (Sample.lambdaContext true) Hm)
    as (rq & _ & _ & H).
  exact H.
Defined.

(** An upload request: the processor's output is the payload of the one run of
    the engine; and where the processor resolves to the empty text, the
    bridge answers that the body is missing. *)
Lemma uploaded_body_reaches_engine_witness :
  let S : @ApolloServerBase string unit := Sample.server None in
  let event := Sample.multipartPost in
  let context := Sample.lambdaContext true in
  let after (p : string) : APIGatewayProxyEvent (@Body string) :=
    withBody event
      (Obj.set "content-type" "multipart/form-data; boundary=x" (headers event))
      (Uploaded p) in
  httpMethod event = "POST" /\
  settled (uploadStep S (Sample.imports Sample.answer (Some Sample.uploadOk))
             (Sample.options None false) event
             (Headers.of_object (headers event)))
    = Resolved (after "LS14LS0=") /\
  graphqlHandler (Sample.imports Sample.answer (Some Sample.uploadOk)) tt
      (after "LS14LS0=") context
    = ([CallRunHttpQuery (after "LS14LS0=") context
          (httpQueryRequest tt (after "LS14LS0=")
             (QueryBody (Uploaded "LS14LS0="))
             (Headers.of_object (headers (after "LS14LS0="))))],
       Resolved {| resultBody := "{ data }"; statusCode := 200;
                   resultHeaders := Some Sample.jsonHeaders |}) /\
  settled (uploadStep S (Sample.imports Sample.answer (Some Sample.uploadNothing))
             (Sample.options None false) event
             (Headers.of_object (headers event)))
    = Resolved (after "") /\
  graphqlHandler (Sample.imports Sample.answer (Some Sample.uploadNothing)) tt
      (after "") context
    = ([], Resolved postBodyMissing).
Proof.
  cbv zeta. do 2 (split; [reflexivity|]). split; [|split; [reflexivity|]].
  - exact (proj2
             (uploaded_body_reaches_engine (Sample.server None)
                (Sample.imports Sample.answer (Some Sample.uploadOk))
                (Sample.options None false) Sample.multipartPost
                (withBody Sample.multipartPost
                   (Obj.set "content-type" "multipart/form-data; boundary=x"
                      (headers Sample.multipartPost))
                   (Uploaded "LS14LS0="))
                "LS14LS0=" tt (Sample.lambdaContext true)
                eq_refl eq_refl eq_refl)).
  - exact (proj2
             (uploaded_body_reaches_engine (Sample.server None)
                (Sample.imports Sample.answer (Some Sample.uploadNothing))
                (Sample.options None false) Sample.multipartPost
                (withBody Sample.multipartPost
                   (Obj.set "content-type" "multipart/form-data; boundary=x"
                      (headers Sample.multipartPost))
                   (Uploaded ""))
                "" tt (Sample.lambdaContext true)
                eq_refl eq_refl eq_refl)).
Defined.

(** [engine: false] with an API key in the environment: reporting is switched
    on, with [sendReportsImmediately] alone. *)
Lemma constructor_engine_options_witness :
  engine (ApolloServer_constructor (Some "service:key")
            {| engine := Some (EngineFlag false) : option (@EngineOption unit);
               otherConfig := tt |})
    = Some (EngineReporting {["sendReportsImmediately" := EngineBool true]}).
Proof.
  destruct (proj2 (proj2 (constructor_engine_options (Some "service:key")
              {| engine := Some (EngineFlag false) : option (@EngineOption unit);
                 otherConfig := tt |})) (or_introl eq_refl))
    as (r & Hr & _ & _ & _ & Hempty).
  rewrite Hr, (Hempty eq_refl). reflexivity.
Defined.
